(** * SimpleJavaRunner: class-name resolution and run orchestration

    A shallow embedding of the two implementations shipped by the
    repository, the React component [src/JavaRunner.tsx] and the vanilla
    controller [src/script.js]:

    - [extractMainClass], the regular-expression based resolver of the
      entry-point class name, over a small backtracking matcher for the
      fragment of ECMAScript regular expressions the source uses;
    - [runCode], the asynchronous compile-then-launch sequence, as a
      transition function over an explicit state that holds the busy flag,
      the DOM regions, the log of calls made to the external runtime, the
      armed timers and the suspended activations of [runCode];
    - on top of these, the renders of the React component, whose [runCode]
      reads the values of the render that made it, and the page of the
      vanilla controller, whose MutationObserver is called back after the
      writes to the console and to the output region. *)

From Stdlib Require Import Ascii String NArith ZArith Bool Arith Lia List.
Import ListNotations.

(* ================================================================== *)
(** * JavaScript strings *)
(* ================================================================== *)

(** A JavaScript string is a sequence of UTF-16 code units. *)
Definition code_unit := N.
Definition jsstring := list code_unit.

(** String literals of the source: every character of the literals used
    here is ASCII, so its code unit is its byte. *)
Definition lit (s : string) : jsstring :=
  map N_of_ascii (list_ascii_of_string s).

Definition in_range (lo hi c : N) : bool := (N.leb lo c && N.leb c hi)%bool.

(** WhiteSpace and LineTerminator of ECMAScript: the characters matched by
    [\s] and stripped by [String.prototype.trim]. *)
Definition is_space (c : code_unit) : bool :=
  (in_range 9 13 c            (* TAB, LF, VT, FF, CR *)
   || N.eqb c 32              (* SPACE *)
   || N.eqb c 160             (* NO-BREAK SPACE *)
   || N.eqb c 5760            (* U+1680 *)
   || in_range 8192 8202 c    (* U+2000 .. U+200A *)
   || N.eqb c 8232            (* LINE SEPARATOR *)
   || N.eqb c 8233            (* PARAGRAPH SEPARATOR *)
   || N.eqb c 8239            (* U+202F *)
   || N.eqb c 8287            (* U+205F *)
   || N.eqb c 12288           (* U+3000 *)
   || N.eqb c 65279)%bool.    (* U+FEFF *)

(** The characters matched by [\w]: [A-Za-z0-9_]. *)
Definition is_word (c : code_unit) : bool :=
  (in_range 48 57 c || in_range 65 90 c || N.eqb c 95 || in_range 97 122 c)%bool.

Fixpoint takeWhile (p : code_unit -> bool) (s : jsstring) : jsstring :=
  match s with
  | x :: s' => if p x then x :: takeWhile p s' else []
  | [] => []
  end.

Fixpoint dropWhile (p : code_unit -> bool) (s : jsstring) : jsstring :=
  match s with
  | x :: s' => if p x then dropWhile p s' else s
  | [] => []
  end.

(** [String.prototype.trim]: white space removed from both ends. *)
Definition trim (s : jsstring) : jsstring :=
  rev (dropWhile is_space (rev (dropWhile is_space s))).

(* ================================================================== *)
(** * The regular expressions of the source *)
(* ================================================================== *)

(** The source uses pattern characters, the escapes [\s] and [\w], the
    negated class [[^;]], the greedy quantifier [+] on a one-character
    atom, one capturing group and concatenation. *)
Inductive char_class : Type :=
| PatternChar (c : code_unit)       (* a literal character *)
| ClassSpace                        (* \s *)
| ClassWord                         (* \w *)
| ClassNot (c : code_unit).         (* [^c] *)

Definition class_matches (cl : char_class) (x : code_unit) : bool :=
  match cl with
  | PatternChar c => N.eqb x c
  | ClassSpace => is_space x
  | ClassWord => is_word x
  | ClassNot c => negb (N.eqb x c)
  end.

Inductive regex : Type :=
| REmpty
| RChar (cl : char_class)
| RPlus (cl : char_class)           (* Atom '+', greedy *)
| RGroup (r : regex)                (* ( Disjunction ) *)
| RSeq (r1 r2 : regex).

Definition seq_of (rs : list regex) : regex := fold_right RSeq REmpty rs.
Definition chars (s : string) : regex :=
  seq_of (map (fun c => RChar (PatternChar c)) (lit s)).

(** The matcher follows the continuation-passing semantics of the
    ECMAScript specification: a matcher takes the remaining input, the
    captures so far and a continuation, and backtracks into the last
    choice point when the continuation fails. *)
Definition match_state : Type := (jsstring * list jsstring)%type.
Definition continuation : Type := jsstring -> list jsstring -> option match_state.

(** Greedy repetition of a one-character atom, zero or more times: the
    longest run is tried first, then shorter ones. *)
Fixpoint star (cl : char_class) (s : jsstring)
         (k : jsstring -> option match_state) : option match_state :=
  match s with
  | x :: s' =>
      if class_matches cl x then
        match star cl s' k with
        | Some r => Some r
        | None => k s
        end
      else k s
  | [] => k []
  end.

Fixpoint run (r : regex) (s : jsstring) (caps : list jsstring)
         (k : continuation) : option match_state :=
  match r with
  | REmpty => k s caps
  | RChar cl =>
      match s with
      | x :: s' => if class_matches cl x then k s' caps else None
      | [] => None
      end
  | RPlus cl =>
      match s with
      | x :: s' => if class_matches cl x then star cl s' (fun t => k t caps) else None
      | [] => None
      end
  | RGroup r1 =>
      run r1 s caps
          (fun t caps' => k t (caps' ++ [firstn (length s - length t) s]))
  | RSeq r1 r2 => run r1 s caps (fun t caps' => run r2 t caps' k)
  end.

(** The continuation at the end of the pattern. *)
Definition accept : continuation := fun t caps => Some (t, caps).

(** One attempt at the current position: the match array, whose element 0
    is the matched text and whose later elements are the captures. *)
Definition exec_at (r : regex) (s : jsstring) : option (list jsstring) :=
  match run r s [] accept with
  | Some (t, caps) => Some (firstn (length s - length t) s :: caps)
  | None => None
  end.

(** [String.prototype.match] with a non-global regular expression: the
    attempt is repeated from every index, left to right, up to and
    including the end of the input; [None] stands for [null]. *)
Fixpoint String_match (r : regex) (s : jsstring) : option (list jsstring) :=
  match exec_at r s with
  | Some m => Some m
  | None =>
      match s with
      | _ :: s' => String_match r s'
      | [] => None
      end
  end.

(** The code unit of [;]. *)
Definition semicolon : code_unit := 59%N.

(** [/package\s+([^;]+);/] *)
Definition package_re : regex :=
  seq_of [chars "package"; RPlus ClassSpace;
          RGroup (RPlus (ClassNot semicolon)); RChar (PatternChar semicolon)].

(** The part of [package_re] after [\s+]: the group and the [;]. *)
Definition name_and_semicolon : regex :=
  seq_of [RGroup (RPlus (ClassNot semicolon)); RChar (PatternChar semicolon)].

(** [/public\s+class\s+(\w+)/] *)
Definition class_re : regex :=
  seq_of [chars "public"; RPlus ClassSpace; chars "class";
          RPlus ClassSpace; RGroup (RPlus ClassWord)].

(** Element [i] of a match array. *)
Definition at_index (m : list jsstring) (i : nat) : jsstring := nth i m [].

(* ================================================================== *)
(** * The external runtime *)
(* ================================================================== *)

Definition newline : jsstring := [10%N].
Definition quoted (s : string) : jsstring := [34%N] ++ lit s ++ [34%N].

Fixpoint join_lines (ls : list jsstring) : jsstring :=
  match ls with
  | [] => []
  | [l] => l
  | l :: ls' => l ++ newline ++ join_lines ls'
  end.

(** The default program of both implementations (the template literal of
    [DEFAULT_JAVA_CODE] and of [getDefaultJavaCode]). *)
Definition hello_world_sample : jsstring :=
  join_lines
    [ lit "public class Main {";
      lit "    public static void main(String[] args) {";
      lit "        System.out.println(" ++ quoted "Hello, World!" ++ lit ");";
      lit "        ";
      lit "        // Try some basic Java features";
      lit "        int number = 42;";
      lit "        String message = " ++ quoted "The answer is: " ++ lit " + number;";
      lit "        System.out.println(message);";
      lit "        ";
      lit "        // Simple loop";
      lit "        for (int i = 1; i <= 5; i++) {";
      lit "            System.out.println(" ++ quoted "Count: " ++ lit " + i);";
      lit "        }";
      lit "    }";
      lit "}" ].

(** [TextEncoder.prototype.encode]: the string is read as code points
    (a surrogate pair is one code point, a lone surrogate becomes U+FFFD)
    and written in UTF-8. *)
Fixpoint code_points (s : jsstring) : list N :=
  match s with
  | [] => []
  | hi :: s' =>
      if in_range 55296 56319 hi then
        match s' with
        | lo :: s'' =>
            if in_range 56320 57343 lo
            then (65536 + (hi - 55296) * 1024 + (lo - 56320))%N :: code_points s''
            else 65533%N :: code_points s'
        | [] => [65533%N]
        end
      else if in_range 56320 57343 hi then 65533%N :: code_points s'
      else hi :: code_points s'
  end.

Definition utf8 (cp : N) : list N :=
  let tail6 (n : N) := N.lor 128 (N.land (N.shiftr cp n) 63) in
  if N.ltb cp 128 then [cp]
  else if N.ltb cp 2048 then [N.lor 192 (N.shiftr cp 6); tail6 0%N]
  else if N.ltb cp 65536 then [N.lor 224 (N.shiftr cp 12); tail6 6%N; tail6 0%N]
  else [N.lor 240 (N.shiftr cp 18); tail6 12%N; tail6 6%N; tail6 0%N].

Definition TextEncoder_encode (s : jsstring) : list N :=
  flat_map utf8 (code_points s).

(** A value thrown by a call into the runtime: an [Error] object, with its
    [name] and [message], or any other value, given by its [String(v)]. *)
Inductive thrown : Type :=
| ErrorObject (name message : jsstring)
| OtherValue (str : jsstring).

Definition is_empty (s : jsstring) : bool :=
  match s with [] => true | _ => false end.

(** [String(error)], as the template literal computes it; for an [Error]
    object this is [Error.prototype.toString]. *)
Definition String_of (e : thrown) : jsstring :=
  match e with
  | ErrorObject name message =>
      if is_empty name then message
      else if is_empty message then name
      else name ++ lit ": " ++ message
  | OtherValue str => str
  end.

(** [error instanceof Error ? error.message : String(error)] *)
Definition message_of (e : thrown) : jsstring :=
  match e with
  | ErrorObject _ message => message
  | OtherValue str => str
  end.

Inductive outcome (A : Type) : Type :=
| Returned (a : A)
| Threw (e : thrown).
Arguments Returned {A} a.
Arguments Threw {A} e.

(** The calls the two implementations make into the runtime, in the
    order they are issued. *)
Inductive engine_call : Type :=
| CallCreateDisplay (width height : Z)
| CallAddStringFile (path : jsstring) (content : list N)
| CallRunMain (className classPath : jsstring) (args : list jsstring).

Definition source_path : jsstring := lit "/str/Main.java".
Definition javac_main : jsstring := lit "com.sun.tools.javac.Main".
Definition javac_args : list jsstring :=
  [lit "/str/Main.java"; lit "-d"; lit "/files/"; lit "-Xlint"].

(** The compiler is invoked with arguments after the classpath, the
    compiled program with none. *)
Definition is_compile (c : engine_call) : bool :=
  match c with
  | CallRunMain _ _ (_ :: _) => true
  | _ => false
  end.

Definition is_launch (c : engine_call) : bool :=
  match c with
  | CallRunMain _ _ [] => true
  | _ => false
  end.

Definition compiles (cs : list engine_call) : nat := length (filter is_compile cs).
Definition launches (cs : list engine_call) : nat := length (filter is_launch cs).

Fixpoint remove_nth {A : Type} (n : nat) (l : list A) : list A :=
  match l, n with
  | [], _ => []
  | _ :: l', O => l'
  | x :: l', S n' => x :: remove_nth n' l'
  end.

(** The delay of the fallback timer, in milliseconds. *)
Definition fallback_delay : N := 1000%N.

Definition compile_failed : jsstring :=
  lit "Compilation failed. Check the console for details.".

(* ================================================================== *)
(** * The React component, [src/JavaRunner.tsx] *)
(* ================================================================== *)

Module JavaRunner.

Definition DEFAULT_JAVA_CODE : jsstring := hello_world_sample.

Definition extractMainClass (code : jsstring) : jsstring :=
  let packageMatch := String_match package_re code in
  let classMatch := String_match class_re code in
  match classMatch with
  | None => lit "Main"
  | Some cm =>
      let className := at_index cm 1 in
      match packageMatch with
      | Some pm =>
          let packageName := trim (at_index pm 1) in
          packageName ++ lit "." ++ className
      | None => className
      end
  end.

(** An activation of [runCode] suspended at one of its two [await]s, with
    the variables of its closure that are read after the suspension. *)
Inductive activation : Type :=
| AwaitCompile (currentCode classPath : jsstring)
| AwaitLaunch.

(** The state variables of the component, the DOM regions its refs point
    to, and the runtime's side: calls received, timers armed, activations
    suspended.  An event is handled by the [runCode] of the latest render,
    so the guard reads the state variables themselves; [JavaRunnerRender]
    below keeps renders and state apart. *)
Record state : Type := mkState {
  isRunning : bool;
  currentCode : jsstring;
  cheerpjReady : bool;
  consoleRef : option jsstring;        (* textContent of the console *)
  outputRef : bool;                    (* the output region is mounted *)
  cheerpjDisplay : option jsstring;    (* innerHTML of #cheerpjDisplay *)
  calls : list engine_call;
  timers : list N;
  pending : list activation
}.

Definition initial (initialCode : jsstring) : state :=
  mkState false initialCode false (Some []) true None [] [] [].

Definition setIsRunning (b : bool) (st : state) : state :=
  mkState b (currentCode st) (cheerpjReady st) (consoleRef st) (outputRef st)
          (cheerpjDisplay st) (calls st) (timers st) (pending st).

Definition setCurrentCode (c : jsstring) (st : state) : state :=
  mkState (isRunning st) c (cheerpjReady st) (consoleRef st) (outputRef st)
          (cheerpjDisplay st) (calls st) (timers st) (pending st).

Definition setCheerpjReady (b : bool) (st : state) : state :=
  mkState (isRunning st) (currentCode st) b (consoleRef st) (outputRef st)
          (cheerpjDisplay st) (calls st) (timers st) (pending st).

Definition set_console (c : option jsstring) (st : state) : state :=
  mkState (isRunning st) (currentCode st) (cheerpjReady st) c (outputRef st)
          (cheerpjDisplay st) (calls st) (timers st) (pending st).

Definition set_display (d : option jsstring) (st : state) : state :=
  mkState (isRunning st) (currentCode st) (cheerpjReady st) (consoleRef st)
          (outputRef st) d (calls st) (timers st) (pending st).

Definition call (c : engine_call) (st : state) : state :=
  mkState (isRunning st) (currentCode st) (cheerpjReady st) (consoleRef st)
          (outputRef st) (cheerpjDisplay st) (calls st ++ [c]) (timers st)
          (pending st).

Definition setTimeout (delay : N) (st : state) : state :=
  mkState (isRunning st) (currentCode st) (cheerpjReady st) (consoleRef st)
          (outputRef st) (cheerpjDisplay st) (calls st) (timers st ++ [delay])
          (pending st).

Definition set_timers (ts : list N) (st : state) : state :=
  mkState (isRunning st) (currentCode st) (cheerpjReady st) (consoleRef st)
          (outputRef st) (cheerpjDisplay st) (calls st) ts (pending st).

Definition set_pending (p : list activation) (st : state) : state :=
  mkState (isRunning st) (currentCode st) (cheerpjReady st) (consoleRef st)
          (outputRef st) (cheerpjDisplay st) (calls st) (timers st) p.

Definition suspend (a : activation) (st : state) : state :=
  set_pending (pending st ++ [a]) st.

Definition clearConsole (st : state) : state :=
  match consoleRef st with
  | Some _ => set_console (Some []) st
  | None => st
  end.

Definition clearOutput (st : state) : state :=
  if outputRef st then
    match cheerpjDisplay st with
    | Some _ => set_display (Some []) st
    | None => st
    end
  else st.

(** [consoleRef.current.textContent += text], under its null check. *)
Definition append_console (text : jsstring) (st : state) : state :=
  match consoleRef st with
  | Some t => set_console (Some (t ++ text)) st
  | None => st
  end.

Definition classPath : jsstring := lit "/app/tools.jar:/files/".

(** The [catch] block of [runCode]. *)
Definition catch (e : thrown) (st : state) : state :=
  append_console (lit "Error: " ++ String_of e ++ newline) st.

(** The [finally] block of [runCode]. *)
Definition finally (st : state) : state := setTimeout fallback_delay st.

(** [runCode], from its entry to the first [await]; [written] is what the
    runtime answers to the file write. *)
Definition runCode (written : outcome unit) (st : state) : state :=
  if (negb (cheerpjReady st) || isRunning st)%bool then st
  else
    let st := setIsRunning true st in
    let st := clearConsole st in
    let st := clearOutput st in
    let st := call (CallAddStringFile source_path
                      (TextEncoder_encode (currentCode st))) st in
    match written with
    | Threw e => finally (catch e st)
    | Returned _ =>
        let st := call (CallRunMain javac_main classPath javac_args) st in
        suspend (AwaitCompile (currentCode st) classPath) st
    end.

(** [runCode], from the settlement of the awaited promise onwards. *)
Definition resume (a : activation) (result : outcome Z) (st : state) : state :=
  match a, result with
  | AwaitCompile code cp, Returned compileResult =>
      if Z.eqb compileResult 0 then
        let mainClass := extractMainClass code in
        let st := call (CallRunMain mainClass cp []) st in
        suspend AwaitLaunch st
      else finally (append_console (compile_failed ++ newline) st)
  | AwaitLaunch, Returned _ => finally st
  | _, Threw e => finally (catch e st)
  end.

Inductive event : Type :=
| Initialized                           (* cheerpjInit has resolved *)
| DocChanged (doc : jsstring)           (* the editor's update listener *)
| RunTriggered (written : outcome unit) (* the button or Ctrl/Cmd+Enter *)
| Settled (n : nat) (result : outcome Z)(* the n-th awaited promise settles *)
| TimerFired                            (* the oldest armed timer expires *)
| ClearClicked
| EnginePrinted (text : jsstring)       (* the runtime writes to the console *)
| EnginePainted (html : jsstring).      (* the runtime paints its display *)

Definition step (st : state) (ev : event) : state :=
  match ev with
  | Initialized =>
      let st := if outputRef st then call (CallCreateDisplay (-1) (-1)) st else st in
      setCheerpjReady true st
  | DocChanged doc => setCurrentCode doc st
  | RunTriggered written => runCode written st
  | Settled n result =>
      match nth_error (pending st) n with
      | Some a => resume a result (set_pending (remove_nth n (pending st)) st)
      | None => st
      end
  | TimerFired =>
      match timers st with
      | _ :: ts => setIsRunning false (set_timers ts st)
      | [] => st
      end
  | ClearClicked => clearConsole st
  | EnginePrinted text => append_console text st
  | EnginePainted html => set_display (Some html) st
  end.

Definition exec (st : state) (evs : list event) : state := fold_left step evs st.

(** The settlements after which [runCode] runs to its end: all but a
    compiler result of 0, which leads to the launch. *)
Definition ends_run (a : activation) (result : outcome Z) : bool :=
  match a, result with
  | AwaitCompile _ _, Returned compileResult => negb (Z.eqb compileResult 0)
  | _, _ => true
  end.

(** Every event of [evs] finds the component busy. *)
Fixpoint busy_throughout (st : state) (evs : list event) : Prop :=
  match evs with
  | [] => True
  | ev :: evs' => isRunning st = true /\ busy_throughout (step st ev) evs'
  end.

(** The calls and the suspended activation of one cycle, where [c] counts
    the compiler calls on the log, the cycle's own included, and [l] the
    launches that were on it before the cycle: the cycle is over, or its
    activation waits for the compiler and nothing was launched, or it
    waits for the program, launched once. *)
Definition cycle (c l : nat) (st : state) : Prop :=
  compiles (calls st) = c
  /\ ((pending st = [] /\ launches (calls st) <= l + 1)
      \/ ((exists code cp, pending st = [AwaitCompile code cp])
          /\ launches (calls st) = l)
      \/ (pending st = [AwaitLaunch] /\ launches (calls st) = (l + 1)%nat)).

(** While the component is busy, its run either has one activation
    suspended, or is over with its fallback timer armed; while it is idle
    nothing is in flight. *)
Definition one_run_in_flight (st : state) : Prop :=
  if isRunning st
  then (length (pending st) + length (timers st) = 1)%nat
  else pending st = [] /\ timers st = [].

End JavaRunner.

(* ================================================================== *)
(** * The vanilla controller, [src/script.js] *)
(* ================================================================== *)

Module SimpleJavaRunner.

Definition getDefaultJavaCode : jsstring := hello_world_sample.

Definition extractMainClass (code : jsstring) : jsstring :=
  (* Extract package name if present *)
  let packageMatch := String_match package_re code in
  let classMatch := String_match class_re code in
  match classMatch with
  | None => lit "Main" (* fallback *)
  | Some cm =>
      let className := at_index cm 1 in
      match packageMatch with
      | Some pm =>
          let packageName := trim (at_index pm 1) in
          packageName ++ lit "." ++ className
      | None => className
      end
  end.

(** An activation of [runCode] suspended at one of its two [await]s; the
    source is read again from [this.currentCode] after the suspension. *)
Inductive activation : Type :=
| AwaitCompile (classPath : jsstring)
| AwaitLaunch.

Record button : Type := mkButton {
  disabled : bool;
  textContent : jsstring
}.

(** The fields of the controller, the elements of the document it looks
    up by id ([None]: no such element; for [runBtn], also an element that
    is not a button), and the runtime's side.  [runtimeReady] is not a
    field of the class, which keeps no such flag: it records that
    [cheerpjInit] has resolved and the display was created. *)
Record state : Type := mkState {
  isRunning : bool;
  currentCode : jsstring;
  console : option jsstring;           (* textContent of #console *)
  output : bool;                       (* #output exists *)
  cheerpjDisplay : option jsstring;    (* innerHTML of #cheerpjDisplay *)
  runBtn : option button;
  loading : option bool;               (* #loading carries class hidden *)
  observer : bool;                     (* the MutationObserver is installed *)
  runtimeReady : bool;
  calls : list engine_call;
  timers : list N;
  pending : list activation
}.

Definition initial : state :=
  mkState false getDefaultJavaCode (Some []) true None
          (Some (mkButton false (lit "Run Code"))) (Some true) false false
          [] [] [].

Definition set_isRunning (b : bool) (st : state) : state :=
  mkState b (currentCode st) (console st) (output st) (cheerpjDisplay st)
          (runBtn st) (loading st) (observer st) (runtimeReady st)
          (calls st) (timers st) (pending st).

Definition set_currentCode (c : jsstring) (st : state) : state :=
  mkState (isRunning st) c (console st) (output st) (cheerpjDisplay st)
          (runBtn st) (loading st) (observer st) (runtimeReady st)
          (calls st) (timers st) (pending st).

Definition set_console (c : option jsstring) (st : state) : state :=
  mkState (isRunning st) (currentCode st) c (output st) (cheerpjDisplay st)
          (runBtn st) (loading st) (observer st) (runtimeReady st)
          (calls st) (timers st) (pending st).

Definition set_display (d : option jsstring) (st : state) : state :=
  mkState (isRunning st) (currentCode st) (console st) (output st) d
          (runBtn st) (loading st) (observer st) (runtimeReady st)
          (calls st) (timers st) (pending st).

Definition set_runBtn (b : option button) (st : state) : state :=
  mkState (isRunning st) (currentCode st) (console st) (output st)
          (cheerpjDisplay st) b (loading st) (observer st) (runtimeReady st)
          (calls st) (timers st) (pending st).

Definition set_loading (l : option bool) (st : state) : state :=
  mkState (isRunning st) (currentCode st) (console st) (output st)
          (cheerpjDisplay st) (runBtn st) l (observer st) (runtimeReady st)
          (calls st) (timers st) (pending st).

Definition set_observer (b : bool) (st : state) : state :=
  mkState (isRunning st) (currentCode st) (console st) (output st)
          (cheerpjDisplay st) (runBtn st) (loading st) b (runtimeReady st)
          (calls st) (timers st) (pending st).

Definition set_runtimeReady (b : bool) (st : state) : state :=
  mkState (isRunning st) (currentCode st) (console st) (output st)
          (cheerpjDisplay st) (runBtn st) (loading st) (observer st) b
          (calls st) (timers st) (pending st).

Definition call (c : engine_call) (st : state) : state :=
  mkState (isRunning st) (currentCode st) (console st) (output st)
          (cheerpjDisplay st) (runBtn st) (loading st) (observer st)
          (runtimeReady st) (calls st ++ [c]) (timers st) (pending st).

Definition setTimeout (delay : N) (st : state) : state :=
  mkState (isRunning st) (currentCode st) (console st) (output st)
          (cheerpjDisplay st) (runBtn st) (loading st) (observer st)
          (runtimeReady st) (calls st) (timers st ++ [delay]) (pending st).

Definition set_timers (ts : list N) (st : state) : state :=
  mkState (isRunning st) (currentCode st) (console st) (output st)
          (cheerpjDisplay st) (runBtn st) (loading st) (observer st)
          (runtimeReady st) (calls st) ts (pending st).

Definition set_pending (p : list activation) (st : state) : state :=
  mkState (isRunning st) (currentCode st) (console st) (output st)
          (cheerpjDisplay st) (runBtn st) (loading st) (observer st)
          (runtimeReady st) (calls st) (timers st) p.

Definition suspend (a : activation) (st : state) : state :=
  set_pending (pending st ++ [a]) st.

Definition setRunning (running : bool) (st : state) : state :=
  let st := set_isRunning running st in
  let st :=
    match runBtn st with
    | Some _ =>
        set_runBtn
          (Some (mkButton running
                   (if running then lit "Running..." else lit "Run Code"))) st
    | None => st
    end in
  match loading st with
  | Some _ => set_loading (Some (negb running)) st
  | None => st
  end.

Definition clearConsole (st : state) : state :=
  match console st with
  | Some _ => set_console (Some []) st
  | None => st
  end.

Definition clearOutput (st : state) : state :=
  match cheerpjDisplay st with
  | Some _ => set_display (Some []) st
  | None => st
  end.

Definition showError (message : jsstring) (st : state) : state :=
  match console st with
  | Some t => set_console (Some (t ++ lit "Error: " ++ message ++ newline)) st
  | None => st
  end.

Definition classPath : jsstring := lit "/app/tools.jar:/files/".

(** The [catch] block of [runCode]. *)
Definition catch (e : thrown) (st : state) : state :=
  let errorMessage := message_of e in
  showError (lit "Runtime error: " ++ errorMessage) st.

(** The [finally] block of [runCode]: the callback is armed here and runs
    at [TimerFired]. *)
Definition finally (st : state) : state := setTimeout fallback_delay st.

Definition timer_callback (st : state) : state :=
  if isRunning st then setRunning false st else st.

(** [runCode], from its entry to the first [await]; [written] is what the
    runtime answers to the file write. *)
Definition runCode (written : outcome unit) (st : state) : state :=
  if isRunning st then st
  else
    let st := setRunning true st in
    let st := clearConsole st in
    let st := clearOutput st in
    let st := call (CallAddStringFile source_path
                      (TextEncoder_encode (currentCode st))) st in
    match written with
    | Threw e => finally (catch e st)
    | Returned _ =>
        let st := call (CallRunMain javac_main classPath javac_args) st in
        suspend (AwaitCompile classPath) st
    end.

(** [runCode], from the settlement of the awaited promise onwards. *)
Definition resume (a : activation) (result : outcome Z) (st : state) : state :=
  match a, result with
  | AwaitCompile cp, Returned compileResult =>
      if Z.eqb compileResult 0 then
        let mainClass := extractMainClass (currentCode st) in
        let st := call (CallRunMain mainClass cp []) st in
        suspend AwaitLaunch st
      else finally (showError compile_failed st)
  | AwaitLaunch, Returned _ => finally st
  | _, Threw e => finally (catch e st)
  end.

Inductive event : Type :=
| Initialized                           (* cheerpjInit has resolved *)
| InitFailed (e : thrown)               (* cheerpjInit is missing or rejects *)
| ObserverInstalled                     (* setupMutationObserver *)
| MutationsDelivered                    (* the observer's callback runs, at
                                           the microtask checkpoint after a
                                           change of #console or #output;
                                           [SimpleJavaRunnerPage] below says
                                           after which handlers *)
| DocChanged (doc : jsstring)           (* the editor's update listener *)
| RunTriggered (written : outcome unit) (* the button or Ctrl/Cmd+Enter *)
| Settled (n : nat) (result : outcome Z)(* the n-th awaited promise settles *)
| TimerFired                            (* the oldest armed timer expires *)
| ClearClicked
| EnginePrinted (text : jsstring)       (* the runtime writes to the console *)
| EnginePainted (html : jsstring).      (* the runtime paints its display *)

Definition init_failure (st : state) (errorMessage : jsstring) : state :=
  showError (lit "Failed to initialize Java runtime: " ++ errorMessage) st.

Definition step (st : state) (ev : event) : state :=
  match ev with
  | Initialized =>
      if output st
      then set_runtimeReady true (call (CallCreateDisplay (-1) (-1)) st)
      else init_failure st (lit "Output display element not found")
  | InitFailed e => init_failure st (message_of e)
  | ObserverInstalled => set_observer true st
  | MutationsDelivered =>
      if observer st then
        if isRunning st then setRunning false st else st
      else st
  | DocChanged doc => set_currentCode doc st
  | RunTriggered written => runCode written st
  | Settled n result =>
      match nth_error (pending st) n with
      | Some a => resume a result (set_pending (remove_nth n (pending st)) st)
      | None => st
      end
  | TimerFired =>
      match timers st with
      | _ :: ts => timer_callback (set_timers ts st)
      | [] => st
      end
  | ClearClicked => clearConsole st
  | EnginePrinted text =>
      match console st with
      | Some t => set_console (Some (t ++ text)) st
      | None => st
      end
  | EnginePainted html => set_display (Some html) st
  end.

Definition exec (st : state) (evs : list event) : state := fold_left step evs st.

(** The settlements after which [runCode] runs to its end: all but a
    compiler result of 0, which leads to the launch. *)
Definition ends_run (a : activation) (result : outcome Z) : bool :=
  match a, result with
  | AwaitCompile _, Returned compileResult => negb (Z.eqb compileResult 0)
  | _, _ => true
  end.

(** Every event of [evs] finds the controller busy. *)
Fixpoint busy_throughout (st : state) (evs : list event) : Prop :=
  match evs with
  | [] => True
  | ev :: evs' => isRunning st = true /\ busy_throughout (step st ev) evs'
  end.

(** The calls and the suspended activation of one cycle, where [c] counts
    the compiler calls on the log, the cycle's own included, and [l] the
    launches that were on it before the cycle: the cycle is over, or its
    activation waits for the compiler and nothing was launched, or it
    waits for the program, launched once. *)
Definition cycle (c l : nat) (st : state) : Prop :=
  compiles (calls st) = c
  /\ ((pending st = [] /\ launches (calls st) <= l + 1)
      \/ ((exists cp, pending st = [AwaitCompile cp])
          /\ launches (calls st) = l)
      \/ (pending st = [AwaitLaunch] /\ launches (calls st) = (l + 1)%nat)).

End SimpleJavaRunner.

(* ================================================================== *)
(** * Declarations, as the specification words them *)
(* ================================================================== *)

(** The specification describes the two patterns by their shape,
    [package <dotted-name>;] and [public class <identifier>].  The
    definitions below read a declaration off the text directly, without a
    matcher: the keyword, white space, and the name. *)

Fixpoint strip_prefix (w s : jsstring) : option jsstring :=
  match w with
  | [] => Some s
  | c :: w' =>
      match s with
      | x :: s' => if N.eqb x c then strip_prefix w' s' else None
      | [] => None
      end
  end.

Definition starts_with (p : code_unit -> bool) (s : jsstring) : bool :=
  match s with
  | x :: _ => p x
  | [] => false
  end.

Definition is_semicolon (c : code_unit) : bool := N.eqb c semicolon.
Definition not_semicolon (c : code_unit) : bool := negb (N.eqb c semicolon).

(** A public-class declaration starts at the head of [s]: the keyword
    [public], white space, the keyword [class], white space, and the
    longest run of word characters, which is the identifier. *)
Definition spec_public_class_at (s : jsstring) : option jsstring :=
  match strip_prefix (lit "public") s with
  | Some s1 =>
      if starts_with is_space s1 then
        match strip_prefix (lit "class") (dropWhile is_space s1) with
        | Some s3 =>
            if starts_with is_space s3 then
              let s4 := dropWhile is_space s3 in
              if starts_with is_word s4 then Some (takeWhile is_word s4)
              else None
            else None
        | None => None
        end
      else None
  | None => None
  end.

(** A package declaration starts at the head of [s]: the keyword
    [package], a white-space character, at least one more character other
    than [;], and a [;] further on.  The name is the text between the
    white space and the first [;]. *)
Definition spec_package_at (s : jsstring) : bool :=
  match strip_prefix (lit "package") s with
  | Some (x :: y :: t) =>
      (is_space x && not_semicolon y && existsb is_semicolon t)%bool
  | _ => false
  end.

Definition is_some {A : Type} (o : option A) : bool :=
  match o with Some _ => true | None => false end.

Definition public_class_at (s : jsstring) : bool :=
  is_some (spec_public_class_at s).

(** The offset of the first suffix of [s] that satisfies [P], if any. *)
Fixpoint index_where (P : jsstring -> bool) (s : jsstring) : option nat :=
  if P s then Some O
  else
    match s with
    | _ :: s' => option_map S (index_where P s')
    | [] => None
    end.

(** Non-empty runs of white space, of word characters, and of characters
    other than [;]. *)
Definition nonempty (s : jsstring) : bool := negb (is_empty s).
Definition blank (s : jsstring) : bool := (nonempty s && forallb is_space s)%bool.
Definition word_run (s : jsstring) : bool := (nonempty s && forallb is_word s)%bool.
Definition name_text (s : jsstring) : bool :=
  (nonempty s && forallb not_semicolon s)%bool.

(** [sub] occurs in [text]. *)
Definition includes (text sub : jsstring) : Prop :=
  exists a b, text = a ++ sub ++ b.

(** The resolver as two scans from the left, with no matcher: the
    identifier of the first public-class declaration, and in front of it
    the trimmed text between the white-space character that follows the
    first [package] declaration's keyword and the next [;]. *)
Definition spec_package_name (t : jsstring) : jsstring :=
  trim (takeWhile not_semicolon (skipn 8 t)).

Definition spec_extractMainClass (code : jsstring) : jsstring :=
  match index_where public_class_at code with
  | None => lit "Main"
  | Some n =>
      match spec_public_class_at (skipn n code) with
      | None => lit "Main"
      | Some id =>
          match index_where spec_package_at code with
          | None => id
          | Some m => spec_package_name (skipn m code) ++ lit "." ++ id
          end
      end
  end.

(** Text whose code units are all ASCII. *)
Definition ascii_only (s : jsstring) : bool :=
  forallb (fun c => N.ltb c 128) s.

(* ================================================================== *)
(** * The controls: keyboard shortcut, run button, loading overlay *)
(* ================================================================== *)

(** The fields of a [keydown] event that the listeners read. *)
Record KeyboardEvent : Type := mkKeyboardEvent {
  ctrlKey : bool;
  metaKey : bool;
  key : jsstring
}.

(** [===] on strings. *)
Fixpoint jsstring_eqb (a b : jsstring) : bool :=
  match a, b with
  | [], [] => true
  | x :: a', y :: b' => (N.eqb x y && jsstring_eqb a' b')%bool
  | _, _ => false
  end.

Module JavaRunnerUI.
Import JavaRunner.



(** [handleKeyDown]: whether [preventDefault] was called, and the state
    after the listener. *)
Definition handleKeyDown (e : KeyboardEvent) (written : outcome unit)
           (st : state) : bool * state :=
  if ((ctrlKey e || metaKey e) && jsstring_eqb (key e) (lit "Enter"))%bool
  then (true, runCode written st)
  else (false, st).

(** The event is a trigger that passes the guard of [runCode]. *)
Definition starts_run (st : state) (ev : event) : bool :=
  match ev with
  | RunTriggered _ => negb (negb (cheerpjReady st) || isRunning st)
  | _ => false
  end.

Definition is_clear (ev : event) : bool :=
  match ev with ClearClicked => true | _ => false end.

Definition is_paint (ev : event) : bool :=
  match ev with EnginePainted _ => true | _ => false end.

Definition is_initialized (ev : event) : bool :=
  match ev with Initialized => true | _ => false end.

(** No event of [evs] starts a run or is a click on Clear. *)
Fixpoint console_kept (st : state) (evs : list event) : bool :=
  match evs with
  | [] => true
  | ev :: evs' =>
      (negb (starts_run st ev) && negb (is_clear ev)
       && console_kept (step st ev) evs')%bool
  end.

(** No event of [evs] starts a run or is a repaint by the runtime. *)
Fixpoint display_kept (st : state) (evs : list event) : bool :=
  match evs with
  | [] => true
  | ev :: evs' =>
      (negb (starts_run st ev) && negb (is_paint ev)
       && display_kept (step st ev) evs')%bool
  end.

(** The events of one run, from the trigger to the last settlement, given
    what the runtime answers to the file write, to the compiler call and
    to the launch. *)
Definition run_events (written : outcome unit) (compiled launched : outcome Z)
  : list event :=
  RunTriggered written
  :: match written with
     | Threw _ => []
     | Returned _ =>
         Settled 0 compiled
         :: match compiled with
            | Returned z => if Z.eqb z 0 then [Settled 0 launched] else []
            | Threw _ => []
            end
     end.

(** The two states differ at most in what the console and the display
    hold. *)
Definition same_but_regions (st1 st2 : state) : Prop :=
  isRunning st1 = isRunning st2
  /\ currentCode st1 = currentCode st2
  /\ cheerpjReady st1 = cheerpjReady st2
  /\ outputRef st1 = outputRef st2
  /\ calls st1 = calls st2
  /\ timers st1 = timers st2
  /\ pending st1 = pending st2.

(** The number of activations that wait for the compiler. *)
Definition awaiting_compile (ps : list activation) : nat :=
  length (filter (fun a => match a with AwaitCompile _ _ => true
                                   | AwaitLaunch => false end) ps).

End JavaRunnerUI.

Module SimpleJavaRunnerUI.
Import SimpleJavaRunner.

(** The [keydown] listener of [setupEventListeners]: whether
    [preventDefault] was called, and the state after the listener. *)
Definition handleKeyDown (e : KeyboardEvent) (written : outcome unit)
           (st : state) : bool * state :=
  if ((ctrlKey e || metaKey e) && jsstring_eqb (key e) (lit "Enter"))%bool
  then (true, runCode written st)
  else (false, st).

(** The run button and the loading overlay show the busy flag, as
    [setRunning] leaves them. *)
Definition controls_in_sync (st : state) : Prop :=
  match runBtn st with
  | Some b =>
      disabled b = isRunning st
      /\ textContent b
         = (if isRunning st then lit "Running..." else lit "Run Code")
  | None => True
  end
  /\ match loading st with
     | Some hidden => hidden = negb (isRunning st)
     | None => True
     end.

Definition starts_run (st : state) (ev : event) : bool :=
  match ev with
  | RunTriggered _ => negb (isRunning st)
  | _ => false
  end.

Definition is_clear (ev : event) : bool :=
  match ev with ClearClicked => true | _ => false end.

Definition is_paint (ev : event) : bool :=
  match ev with EnginePainted _ => true | _ => false end.

Fixpoint console_kept (st : state) (evs : list event) : bool :=
  match evs with
  | [] => true
  | ev :: evs' =>
      (negb (starts_run st ev) && negb (is_clear ev)
       && console_kept (step st ev) evs')%bool
  end.

Fixpoint display_kept (st : state) (evs : list event) : bool :=
  match evs with
  | [] => true
  | ev :: evs' =>
      (negb (starts_run st ev) && negb (is_paint ev)
       && display_kept (step st ev) evs')%bool
  end.

Definition run_events (written : outcome unit) (compiled launched : outcome Z)
  : list event :=
  RunTriggered written
  :: match written with
     | Threw _ => []
     | Returned _ =>
         Settled 0 compiled
         :: match compiled with
            | Returned z => if Z.eqb z 0 then [Settled 0 launched] else []
            | Threw _ => []
            end
     end.

(** The number of activations that wait for the compiler. *)
Definition awaiting_compile (ps : list activation) : nat :=
  length (filter (fun a => match a with AwaitCompile _ => true
                                   | AwaitLaunch => false end) ps).

End SimpleJavaRunnerUI.

(* ================================================================== *)
(** * The renders of the React component *)
(* ================================================================== *)

Module JavaRunnerRender.
Import JavaRunner.

(** [runCode] is made by [useCallback] with the dependencies
    [cheerpjReady], [isRunning] and [currentCode]: what it reads are the
    values these had in the render that made it, not the state variables
    as they are when it is called. *)
Record closure : Type := mkClosure {
  seen_cheerpjReady : bool;
  seen_isRunning : bool;
  seen_currentCode : jsstring
}.

Definition closure_of (st : state) : closure :=
  mkClosure (cheerpjReady st) (isRunning st) (currentCode st).

(** [runCode] of the render [k], from its entry to the first [await]. *)
Definition runCode (k : closure) (written : outcome unit) (st : state) : state :=
  if (negb (seen_cheerpjReady k) || seen_isRunning k)%bool then st
  else
    let st := setIsRunning true st in
    let st := clearConsole st in
    let st := clearOutput st in
    let st := call (CallAddStringFile source_path
                      (TextEncoder_encode (seen_currentCode k))) st in
    match written with
    | Threw e => finally (catch e st)
    | Returned _ =>
        let st := call (CallRunMain javac_main classPath javac_args) st in
        suspend (AwaitCompile (seen_currentCode k) classPath) st
    end.

(** The component: its state, and the [runCode] that the run button and
    the [keydown] listener hold, which is the one of the last render that
    React has committed. *)
Record component : Type := mkComponent {
  current : state;
  handler : closure
}.

Inductive occurrence : Type :=
| Handled (ev : event)      (* an event reaches its handler *)
| Committed.                (* React commits a render of the current state *)

Definition occur (c : component) (o : occurrence) : component :=
  match o with
  | Handled (RunTriggered written) =>
      mkComponent (runCode (handler c) written (current c)) (handler c)
  | Handled ev => mkComponent (step (current c) ev) (handler c)
  | Committed => mkComponent (current c) (closure_of (current c))
  end.

Definition run (c : component) (os : list occurrence) : component :=
  fold_left occur os c.

Definition mount (initialCode : jsstring) : component :=
  mkComponent (initial initialCode) (closure_of (initial initialCode)).

(** A render is committed after every event, before the next one is
    handled. *)
Definition rendered_each (evs : list event) : list occurrence :=
  flat_map (fun ev => [Handled ev; Committed]) evs.


(** The two components differ at most in what the console and the
    display hold. *)
Definition same_but_regions (c1 c2 : component) : Prop :=
  JavaRunnerUI.same_but_regions (current c1) (current c2)
  /\ handler c1 = handler c2.

End JavaRunnerRender.

(* ================================================================== *)
(** * The page of the vanilla controller, with its MutationObserver *)
(* ================================================================== *)

Module SimpleJavaRunnerPage.
Import SimpleJavaRunner.

(** A region has child nodes: the element exists and holds some text. *)
Definition has_children (region : option jsstring) : bool :=
  match region with
  | Some (_ :: _) => true
  | _ => false
  end.

Definition region_eqb (a b : option jsstring) : bool :=
  match a, b with
  | Some x, Some y => jsstring_eqb x y
  | None, None => true
  | _, _ => false
  end.

(** [setupMutationObserver] observes the child list of [#console] and of
    [#output], with their subtrees; [#cheerpjDisplay] is mounted under
    [#output].  A write is reported to the observer when it changes what
    one of these holds: [textContent = ''] and [innerHTML = ''] on a region
    that holds something, [textContent += ...], and the output of the
    runtime.  The run button and the loading overlay are not observed. *)
Definition reported (st st' : state) : bool :=
  (negb (region_eqb (console st) (console st'))
   || (output st
       && negb (region_eqb (cheerpjDisplay st) (cheerpjDisplay st'))))%bool.

(** The handler of [ev] makes a write that is reported.  [runCode] first
    clears the regions and may then append an error message in the same
    turn; the two are looked at one after the other. *)
Definition writes_reported (st : state) (ev : event) : bool :=
  match ev with
  | RunTriggered _ =>
      if isRunning st then false
      else
        let cleared := clearOutput (clearConsole st) in
        (reported st cleared || reported cleared (step st ev))%bool
  | _ => reported st (step st ev)
  end.

(** One turn of the event loop of the page: the handler of [ev] runs to
    its end or to its next [await]; then, at the microtask checkpoint, the
    callback of the observer runs, if the observer is installed and a
    write was reported.  The callback does not run by itself.  What the
    runtime puts under [#output], the display it mounts included, is an
    [EnginePainted] of its own. *)
Definition turn (st : state) (ev : event) : state :=
  match ev with
  | MutationsDelivered => st
  | _ =>
      let st' := step st ev in
      if (observer st && writes_reported st ev)%bool
      then step st' MutationsDelivered
      else st'
  end.

Definition run (st : state) (evs : list event) : state := fold_left turn evs st.



(** Every event of [evs] finds the controller busy. *)
Fixpoint busy_throughout (st : state) (evs : list event) : Prop :=
  match evs with
  | [] => True
  | ev :: evs' => isRunning st = true /\ busy_throughout (turn st ev) evs'
  end.

End SimpleJavaRunnerPage.

(* ================================================================== *)
(** * Characters *)
(* ================================================================== *)

Ltac bool_to_prop :=
  repeat rewrite ?orb_true_iff, ?andb_true_iff, ?N.leb_le, ?N.eqb_eq in *.

Lemma space_not_word c : is_space c = true -> is_word c = false.
Proof.
  intros Hs. destruct (is_word c) eqn:Hw; [exfalso | reflexivity].
  unfold is_space, is_word, in_range in *. bool_to_prop. lia.
Qed.

Lemma space_not_semicolon c : is_space c = true -> not_semicolon c = true.
Proof.
  unfold not_semicolon, semicolon. intros H.
  destruct (N.eqb_spec c 59) as [->|]; [vm_compute in H; discriminate | reflexivity].
Qed.

Lemma space_neq c d : is_space c = true -> is_space d = false -> N.eqb c d = false.
Proof.
  intros Hc Hd. destruct (N.eqb_spec c d) as [->|]; [congruence | reflexivity].
Qed.

(* ================================================================== *)
(** * Lists of code units *)
(* ================================================================== *)

Section Runs.
Variable p : code_unit -> bool.

Lemma dropWhile_app_all ws t :
  forallb p ws = true -> dropWhile p (ws ++ t) = dropWhile p t.
Proof.
  induction ws as [|x ws IH]; simpl; [reflexivity|].
  destruct (p x); simpl; [exact IH | discriminate].
Qed.

Lemma dropWhile_stop t : starts_with p t = false -> dropWhile p t = t.
Proof. destruct t as [|x t]; simpl; [reflexivity|]. now intros ->. Qed.

Lemma takeWhile_app ws t :
  forallb p ws = true -> starts_with p t = false -> takeWhile p (ws ++ t) = ws.
Proof.
  intros Hws Ht. induction ws as [|x ws IH]; simpl in *.
  - destruct t as [|y t]; simpl in *; [reflexivity | now rewrite Ht].
  - destruct (p x); simpl in *; [now rewrite IH | discriminate].
Qed.

Lemma dropWhile_app_stop ws t :
  forallb p ws = true -> starts_with p t = false -> dropWhile p (ws ++ t) = t.
Proof.
  intros Hws Ht. rewrite dropWhile_app_all by assumption.
  now apply dropWhile_stop.
Qed.

Lemma take_drop_While s : takeWhile p s ++ dropWhile p s = s.
Proof.
  induction s as [|x s IH]; simpl; [reflexivity|].
  destruct (p x); simpl; [now rewrite IH | reflexivity].
Qed.

Lemma dropWhile_starts s : starts_with p (dropWhile p s) = false.
Proof.
  induction s as [|x s IH]; simpl; [reflexivity|].
  destruct (p x) eqn:E; simpl; [exact IH | exact E].
Qed.

Lemma takeWhile_all s : forallb p (takeWhile p s) = true.
Proof.
  induction s as [|x s IH]; simpl; [reflexivity|].
  destruct (p x) eqn:E; simpl; [now rewrite E | reflexivity].
Qed.
End Runs.

Lemma firstn_consumed (a t : jsstring) :
  firstn (length (a ++ t) - length t) (a ++ t) = a.
Proof.
  rewrite length_app.
  replace (length a + length t - length t)%nat with (length a) by lia.
  rewrite firstn_app, Nat.sub_diag, firstn_all. simpl. now rewrite app_nil_r.
Qed.

Lemma firstn_split (a t s : jsstring) :
  s = a ++ t -> firstn (length s - length t) s = a.
Proof. intros ->. apply firstn_consumed. Qed.

Lemma strip_prefix_app w t : strip_prefix w (w ++ t) = Some t.
Proof.
  induction w as [|c w IH]; simpl; [reflexivity|]. now rewrite N.eqb_refl.
Qed.

Lemma strip_prefix_inv w : forall s t, strip_prefix w s = Some t -> s = w ++ t.
Proof.
  induction w as [|c w IH]; simpl; intros s t H.
  - now inversion H.
  - destruct s as [|x s]; [discriminate|].
    destruct (N.eqb_spec x c) as [->|]; [|discriminate].
    now rewrite (IH _ _ H).
Qed.

(* ================================================================== *)
(** * The matcher *)
(* ================================================================== *)

Section Star.
Variable cl : char_class.
Variable k : jsstring -> option match_state.

(** The longest run is tried first. *)
Lemma star_longest s r :
  k (dropWhile (class_matches cl) s) = Some r -> star cl s k = Some r.
Proof.
  induction s as [|x s IH]; simpl; [auto|].
  destruct (class_matches cl x); [|auto].
  intros H. now rewrite (IH H).
Qed.

(** When the continuation rejects every input that starts with a
    character of the class, only the longest run can succeed. *)
Lemma star_no_backtrack s :
  (forall x t, class_matches cl x = true -> k (x :: t) = None) ->
  star cl s k = k (dropWhile (class_matches cl) s).
Proof.
  intros Hk. induction s as [|x s IH]; simpl; [reflexivity|].
  destruct (class_matches cl x) eqn:E; [|reflexivity].
  rewrite IH. destruct (k (dropWhile (class_matches cl) s)) eqn:Ek; [reflexivity|].
  now apply Hk.
Qed.

(** When the continuation rejects every suffix, so does the repetition. *)
Lemma star_none s : (forall n, k (skipn n s) = None) -> star cl s k = None.
Proof.
  induction s as [|x s IH]; intros Hk.
  - exact (Hk O).
  - simpl. rewrite IH by (intros n; exact (Hk (S n))).
    destruct (class_matches cl x); exact (Hk O).
Qed.
End Star.

Lemma run_chars_list (w : jsstring) : forall s caps k,
  run (seq_of (map (fun c => RChar (PatternChar c)) w)) s caps k =
  match strip_prefix w s with
  | Some t => k t caps
  | None => None
  end.
Proof.
  induction w as [|c w IH]; intros s caps k; simpl; [reflexivity|].
  destruct s as [|x s]; [reflexivity|].
  destruct (N.eqb x c); [apply IH | reflexivity].
Qed.

Lemma run_chars (w : string) s caps k :
  run (chars w) s caps k =
  match strip_prefix (lit w) s with
  | Some t => k t caps
  | None => None
  end.
Proof. apply run_chars_list. Qed.

Lemma run_seq r1 r2 s caps k :
  run (RSeq r1 r2) s caps k = run r1 s caps (fun t caps' => run r2 t caps' k).
Proof. reflexivity. Qed.

Lemma run_plus cl s caps k :
  run (RPlus cl) s caps k =
  match s with
  | x :: s' => if class_matches cl x then star cl s' (fun t => k t caps) else None
  | [] => None
  end.
Proof. reflexivity. Qed.

(** [\s+] in front of a continuation that rejects inputs starting with
    white space: the whole run of white space is consumed. *)
Lemma run_spaces s caps (k : continuation) :
  (forall x t c, is_space x = true -> k (x :: t) c = None) ->
  run (RPlus ClassSpace) s caps k =
  if starts_with is_space s then k (dropWhile is_space s) caps else None.
Proof.
  intros Hk. rewrite run_plus. destruct s as [|x s]; simpl; [reflexivity|].
  destruct (is_space x) eqn:E; [|reflexivity].
  apply (star_no_backtrack ClassSpace). intros y t Hy. now apply Hk.
Qed.

(** ** [/public\s+class\s+(\w+)/] at one position *)

Lemma run_class_re s :
  run class_re s [] accept =
  match strip_prefix (lit "public") s with
  | Some s1 =>
      if starts_with is_space s1 then
        match strip_prefix (lit "class") (dropWhile is_space s1) with
        | Some s3 =>
            if starts_with is_space s3 then
              let s4 := dropWhile is_space s3 in
              if starts_with is_word s4
              then Some (dropWhile is_word s4, [takeWhile is_word s4])
              else None
            else None
        | None => None
        end
      else None
  | None => None
  end.
Proof.
  unfold class_re. cbn [seq_of fold_right].
  rewrite run_seq, run_chars.
  destruct (strip_prefix (lit "public") s) as [s1|]; [|reflexivity].
  rewrite run_seq, run_spaces.
  2:{ intros x t c Hx. rewrite run_seq, run_chars. simpl.
      now rewrite (space_neq x 99%N Hx eq_refl). }
  destruct (starts_with is_space s1); [|reflexivity].
  rewrite run_seq, run_chars.
  destruct (strip_prefix (lit "class") (dropWhile is_space s1)) as [s3|];
    [|reflexivity].
  rewrite run_seq, run_spaces.
  2:{ intros x t c Hx. rewrite run_seq. simpl.
      now rewrite (space_not_word x Hx). }
  destruct (starts_with is_space s3); [|reflexivity].
  cbv zeta. generalize (dropWhile is_space s3) as s4. intros s4.
  rewrite run_seq. cbn [run].
  destruct s4 as [|z s4]; [reflexivity|].
  cbn [starts_with class_matches]. destruct (is_word z) eqn:Ez; [|reflexivity].
  apply (star_longest ClassWord).
  change (class_matches ClassWord) with is_word.
  cbn [dropWhile takeWhile]. rewrite Ez. unfold accept. cbn [app].
  rewrite (firstn_split (z :: takeWhile is_word s4) (dropWhile is_word s4));
    [reflexivity|].
  simpl. now rewrite take_drop_While.
Qed.

Lemma exec_class_some s id :
  spec_public_class_at s = Some id ->
  exists whole, exec_at class_re s = Some [whole; id].
Proof.
  unfold exec_at, spec_public_class_at. fold accept. rewrite run_class_re.
  destruct (strip_prefix (lit "public") s) as [s1|]; [|discriminate].
  destruct (starts_with is_space s1); [|discriminate].
  destruct (strip_prefix (lit "class") (dropWhile is_space s1)) as [s3|];
    [|discriminate].
  destruct (starts_with is_space s3); [|discriminate].
  cbv zeta. destruct (starts_with is_word (dropWhile is_space s3)); [|discriminate].
  intros [= <-]. eauto.
Qed.

Lemma exec_class_none s :
  public_class_at s = false -> exec_at class_re s = None.
Proof.
  unfold exec_at, public_class_at, spec_public_class_at. fold accept.
  rewrite run_class_re.
  destruct (strip_prefix (lit "public") s) as [s1|]; [|reflexivity].
  destruct (starts_with is_space s1); [|reflexivity].
  destruct (strip_prefix (lit "class") (dropWhile is_space s1)) as [s3|];
    [|reflexivity].
  destruct (starts_with is_space s3); [|reflexivity].
  cbv zeta. destruct (starts_with is_word (dropWhile is_space s3));
    [discriminate | reflexivity].
Qed.

(** ** [/package\s+([^;]+);/] at one position *)

Lemma run_name_and_semicolon t caps :
  run name_and_semicolon t caps accept =
  if starts_with not_semicolon t then
    match dropWhile not_semicolon t with
    | _ :: u => Some (u, caps ++ [takeWhile not_semicolon t])
    | [] => None
    end
  else None.
Proof.
  unfold name_and_semicolon. cbn [seq_of fold_right]. rewrite run_seq. cbn [run].
  destruct t as [|y t]; [reflexivity|].
  cbn [starts_with class_matches]. fold (not_semicolon y).
  destruct (not_semicolon y) eqn:Ey; [|reflexivity].
  rewrite (star_no_backtrack (ClassNot semicolon)).
  2:{ intros x u Hx. simpl in Hx. simpl.
      destruct (N.eqb x semicolon); [discriminate | reflexivity]. }
  cbn [dropWhile takeWhile]. rewrite Ey.
  change (class_matches (ClassNot semicolon)) with not_semicolon.
  pose proof (dropWhile_starts not_semicolon t) as Hstop.
  pose proof (take_drop_While not_semicolon t) as Hsplit.
  destruct (dropWhile not_semicolon t) as [|z u]; [reflexivity|].
  simpl in Hstop. unfold not_semicolon in Hstop.
  cbn [class_matches]. destruct (N.eqb z semicolon); [|discriminate].
  unfold accept.
  rewrite (firstn_split (y :: takeWhile not_semicolon t) (z :: u));
    [reflexivity|].
  simpl. now rewrite Hsplit.
Qed.

Lemma run_package_re s :
  run package_re s [] accept =
  match strip_prefix (lit "package") s with
  | Some (x :: s1) =>
      if is_space x
      then star ClassSpace s1 (fun t => run name_and_semicolon t [] accept)
      else None
  | _ => None
  end.
Proof.
  unfold package_re. cbn [seq_of fold_right].
  rewrite run_seq, run_chars.
  destruct (strip_prefix (lit "package") s) as [[|x s1]|]; reflexivity.
Qed.

Lemma trim_space y l : is_space y = true -> trim (y :: l) = trim l.
Proof. intros Hy. unfold trim. simpl. now rewrite Hy. Qed.

Lemma trim_leading ws g : forallb is_space ws = true -> trim (ws ++ g) = trim g.
Proof.
  induction ws as [|y ws IH]; simpl; [reflexivity|].
  destruct (is_space y) eqn:Ey; simpl; [|discriminate].
  intros H. rewrite trim_space by assumption. now apply IH.
Qed.

Lemma name_found l rest caps :
  name_text l = true ->
  run name_and_semicolon (l ++ semicolon :: rest) caps accept =
  Some (rest, caps ++ [l]).
Proof.
  unfold name_text, nonempty. intros H. apply andb_true_iff in H as [Hne Hall].
  rewrite run_name_and_semicolon.
  rewrite dropWhile_app_stop, takeWhile_app by (assumption || reflexivity).
  destruct l as [|y l]; [discriminate|]. simpl in *.
  apply andb_true_iff in Hall as [-> _]. reflexivity.
Qed.

(** The greedy [\s+] gives white space back only when nothing else is
    left for the name; the trimmed capture is the same either way. *)
Lemma spaces_then_name l : forall rest,
  name_text l = true ->
  exists cap,
    star ClassSpace (l ++ semicolon :: rest)
         (fun t => run name_and_semicolon t [] accept) = Some (rest, [cap])
    /\ trim cap = trim l.
Proof.
  induction l as [|y l IH]; intros rest Hl; [discriminate|].
  pose proof (name_found (y :: l) rest [] Hl) as Hfull.
  cbn [app] in *. cbn [star class_matches].
  destruct (is_space y) eqn:Ey.
  - destruct l as [|y' l].
    + cbn [app star class_matches]. change (is_space semicolon) with false. cbv iota.
      rewrite run_name_and_semicolon. cbn [starts_with].
      change (not_semicolon semicolon) with false. cbv iota.
      cbn [app] in Hfull. rewrite Hfull. eauto.
    + destruct (IH rest) as (cap & -> & Hcap).
      { unfold name_text in *. simpl in *.
        apply andb_true_iff in Hl as [_ Hl]. exact Hl. }
      exists cap. split; [reflexivity|]. now rewrite trim_space.
  - rewrite Hfull. eauto.
Qed.

Lemma no_semicolon_skipn u : forall n,
  existsb is_semicolon u = false -> existsb is_semicolon (skipn n u) = false.
Proof.
  induction u as [|x u IH]; intros [|n] H; simpl in *; try assumption.
  apply orb_false_iff in H as [_ H]. now apply IH.
Qed.

Lemma no_semicolon_no_name u caps :
  existsb is_semicolon u = false -> run name_and_semicolon u caps accept = None.
Proof.
  intros H. rewrite run_name_and_semicolon.
  assert (dropWhile not_semicolon u = []) as ->.
  { induction u as [|x u IH]; simpl in *; [reflexivity|].
    apply orb_false_iff in H as [Hx H]. unfold not_semicolon, is_semicolon in *.
    rewrite Hx. simpl. now apply IH. }
  now destruct (starts_with not_semicolon u).
Qed.

Lemma exec_package_none s :
  spec_package_at s = false -> exec_at package_re s = None.
Proof.
  unfold exec_at, spec_package_at. fold accept. rewrite run_package_re.
  destruct (strip_prefix (lit "package") s) as [[|x s1]|]; try reflexivity.
  destruct (is_space x); [|reflexivity].
  destruct s1 as [|y t].
  - intros _. cbn [star]. now rewrite run_name_and_semicolon.
  - simpl andb. intros H.
    destruct (not_semicolon y) eqn:Ey; simpl in H.
    + (* no [;] further on: no suffix holds a name *)
      rewrite star_none; [reflexivity|].
      intros n. apply no_semicolon_no_name, no_semicolon_skipn.
      simpl. unfold not_semicolon, is_semicolon in *.
      destruct (N.eqb y semicolon); [discriminate | exact H].
    + (* the name would start with [;] *)
      assert (is_space y = false) as Hy.
      { destruct (is_space y) eqn:E; [|reflexivity].
        apply space_not_semicolon in E. congruence. }
      cbn [star class_matches]. rewrite Hy.
      rewrite run_name_and_semicolon. cbn [starts_with]. now rewrite Ey.
Qed.

Lemma blank_inv ws :
  blank ws = true ->
  exists x ws', ws = x :: ws' /\ is_space x = true /\ forallb is_space ws' = true.
Proof.
  destruct ws as [|x ws']; [discriminate|]. unfold blank. simpl.
  intros H. apply andb_true_iff in H as [Hx Hws]. eauto.
Qed.

Lemma blank_all ws : blank ws = true -> forallb is_space ws = true.
Proof. unfold blank. intros H. now apply andb_true_iff in H as [_ H]. Qed.

Lemma spaces_not_semicolon ws :
  forallb is_space ws = true -> forallb not_semicolon ws = true.
Proof.
  induction ws as [|x ws IH]; simpl; [reflexivity|].
  intros H. apply andb_true_iff in H as [Hx Hws].
  now rewrite (space_not_semicolon x Hx), IH.
Qed.

Lemma exec_package_found ws g r :
  blank ws = true -> name_text g = true ->
  exists whole cap,
    exec_at package_re (lit "package" ++ ws ++ g ++ semicolon :: r)
    = Some [whole; cap]
    /\ trim cap = trim g.
Proof.
  intros Hws Hg. destruct (blank_inv ws Hws) as (x & ws' & -> & Hx & Hws').
  unfold exec_at. fold accept. rewrite run_package_re, strip_prefix_app.
  cbn [app]. rewrite Hx.
  destruct (spaces_then_name (ws' ++ g) r) as (cap & Hrun & Hcap).
  { unfold name_text, nonempty in *. apply andb_true_iff in Hg as [Hne Hall].
    rewrite forallb_app, Hall, (spaces_not_semicolon ws' Hws').
    destruct ws'; [simpl; now rewrite Hne | reflexivity]. }
  rewrite <- app_assoc in Hrun. rewrite Hrun.
  eexists _, cap. split; [reflexivity|].
  rewrite Hcap. now apply trim_leading.
Qed.

Lemma class_shape ws1 ws2 id rest :
  blank ws1 = true -> blank ws2 = true -> word_run id = true ->
  starts_with is_word rest = false ->
  spec_public_class_at (lit "public" ++ ws1 ++ lit "class" ++ ws2 ++ id ++ rest)
  = Some id.
Proof.
  intros H1 H2 Hid Hrest.
  destruct (blank_inv ws1 H1) as (x1 & ws1' & E1 & Hx1 & _).
  destruct (blank_inv ws2 H2) as (x2 & ws2' & E2 & Hx2 & _).
  apply blank_all in H1, H2.
  unfold word_run, nonempty in Hid. apply andb_true_iff in Hid as [Hne Hid].
  destruct id as [|z id]; [discriminate|].
  assert (is_word z = true) as Hz by (simpl in Hid; now apply andb_true_iff in Hid).
  assert (is_space z = false) as Hz'.
  { destruct (is_space z) eqn:E; [|reflexivity].
    apply space_not_word in E. congruence. }
  unfold spec_public_class_at. rewrite strip_prefix_app.
  replace (starts_with is_space (ws1 ++ lit "class" ++ ws2 ++ (z :: id) ++ rest))
    with true by (subst ws1; simpl; now rewrite Hx1).
  rewrite (dropWhile_app_stop is_space ws1) by (assumption || reflexivity).
  rewrite strip_prefix_app.
  replace (starts_with is_space (ws2 ++ (z :: id) ++ rest))
    with true by (subst ws2; simpl; now rewrite Hx2).
  cbv zeta.
  rewrite (dropWhile_app_stop is_space ws2) by (assumption || exact Hz').
  replace (starts_with is_word ((z :: id) ++ rest)) with true by (simpl; now rewrite Hz).
  now rewrite takeWhile_app.
Qed.

(** ** The search from left to right *)

Section Search.
Variable r : regex.
Variable P : jsstring -> bool.
Hypothesis miss : forall t, P t = false -> exec_at r t = None.

Lemma String_match_none s :
  index_where P s = None -> String_match r s = None.
Proof.
  induction s as [|x s IH]; simpl.
  - destruct (P []) eqn:E; [discriminate|]. now rewrite miss.
  - destruct (P (x :: s)) eqn:E; [discriminate|]. rewrite miss by assumption.
    destruct (index_where P s); [discriminate|]. intros _. now apply IH.
Qed.

Lemma String_match_first pre t m :
  index_where P (pre ++ t) = Some (length pre) ->
  exec_at r t = Some m ->
  String_match r (pre ++ t) = Some m.
Proof.
  intros Hidx Hm. induction pre as [|x pre IH]; simpl in *.
  - destruct t; simpl; now rewrite Hm.
  - destruct (P (x :: pre ++ t)) eqn:E; [discriminate|].
    rewrite miss by assumption.
    destruct (index_where P (pre ++ t)) as [n|]; [|discriminate].
    simpl in Hidx. injection Hidx as ->. now apply IH.
Qed.
End Search.

(** [index_where] is the offset of the first suffix that satisfies the
    predicate. *)
Lemma index_where_none P s :
  index_where P s = None <-> (forall pre t, s = pre ++ t -> P t = false).
Proof.
  induction s as [|x s IH]; simpl.
  - split.
    + destruct (P []) eqn:E; [discriminate|]. intros _ pre t H.
      symmetry in H. apply app_eq_nil in H as [_ ->]. exact E.
    + intros H. now rewrite (H [] [] eq_refl).
  - split.
    + destruct (P (x :: s)) eqn:E; [discriminate|].
      destruct (index_where P s) eqn:Es; [discriminate|]. intros _ pre t H.
      destruct pre as [|y pre]; simpl in H; [now subst t|].
      injection H as _ H. exact (proj1 IH eq_refl pre t H).
    + intros H. rewrite (H [] (x :: s) eq_refl).
      rewrite (proj2 IH); [reflexivity|].
      intros pre t Hs. apply (H (x :: pre) t). now rewrite Hs.
Qed.

Lemma index_where_first P pre t :
  index_where P (pre ++ t) = Some (length pre) <->
  P t = true
  /\ (forall pre1 pre2, pre = pre1 ++ pre2 -> pre2 <> [] -> P (pre2 ++ t) = false).
Proof.
  induction pre as [|x pre IH]; simpl.
  - split.
    + intros H. split.
      * destruct (P t) eqn:E; [reflexivity|]. exfalso.
        destruct t as [|y t]; simpl in H; rewrite E in H; [discriminate|].
        destruct (index_where P t); discriminate.
      * intros pre1 pre2 Hp Hne. symmetry in Hp.
        apply app_eq_nil in Hp as [_ ->]. contradiction.
    + intros [Ht _]. destruct t; simpl; now rewrite Ht.
  - split.
    + destruct (P (x :: pre ++ t)) eqn:E; [discriminate|].
      destruct (index_where P (pre ++ t)) as [n|] eqn:En; [|discriminate].
      simpl. intros [= ->]. destruct (proj1 IH eq_refl) as [Ht Hpre].
      split; [exact Ht|]. intros pre1 pre2 Hp Hne.
      destruct pre1 as [|y pre1]; simpl in Hp.
      * subst pre2. exact E.
      * injection Hp as _ Hp. now apply (Hpre pre1).
    + intros [Ht Hpre].
      pose proof (Hpre [] (x :: pre) eq_refl) as Hx. simpl in Hx.
      rewrite Hx by discriminate.
      rewrite (proj2 IH); [reflexivity|]. split; [exact Ht|].
      intros pre1 pre2 Hp Hne. apply (Hpre (x :: pre1)); [|exact Hne].
      now rewrite Hp.
Qed.

(** ** The first declarations decide the result *)

Lemma first_class_found pre ws1 ws2 id rest :
  blank ws1 = true -> blank ws2 = true -> word_run id = true ->
  starts_with is_word rest = false ->
  let s := pre ++ lit "public" ++ ws1 ++ lit "class" ++ ws2 ++ id ++ rest in
  index_where public_class_at s = Some (length pre) ->
  exists whole, String_match class_re s = Some [whole; id].
Proof.
  intros H1 H2 Hid Hrest s Hidx.
  destruct (exec_class_some _ _ (class_shape ws1 ws2 id rest H1 H2 Hid Hrest))
    as (whole & Hexec).
  exists whole. subst s.
  now apply (String_match_first class_re public_class_at exec_class_none).
Qed.

Lemma first_package_found p ws g r :
  blank ws = true -> name_text g = true ->
  let s := p ++ lit "package" ++ ws ++ g ++ semicolon :: r in
  index_where spec_package_at s = Some (length p) ->
  exists whole cap,
    String_match package_re s = Some [whole; cap] /\ trim cap = trim g.
Proof.
  intros Hws Hg s Hidx.
  destruct (exec_package_found ws g r Hws Hg) as (whole & cap & Hexec & Hcap).
  exists whole, cap. split; [|exact Hcap]. subst s.
  now apply (String_match_first package_re spec_package_at exec_package_none).
Qed.

Lemma no_class_found s :
  index_where public_class_at s = None -> String_match class_re s = None.
Proof. apply String_match_none, exec_class_none. Qed.

Lemma no_package_found s :
  index_where spec_package_at s = None -> String_match package_re s = None.
Proof. apply String_match_none, exec_package_none. Qed.

(** The two declarative readings describe the shapes they are meant to. *)
Lemma spec_package_at_shape s :
  spec_package_at s = true <->
  exists ws g r,
    blank ws = true /\ name_text g = true
    /\ s = lit "package" ++ ws ++ g ++ semicolon :: r.
Proof.
  split.
  - unfold spec_package_at.
    destruct (strip_prefix (lit "package") s) as [[|x [|y t]]|] eqn:E;
      try discriminate.
    intros H. apply andb_true_iff in H as [H Ht].
    apply andb_true_iff in H as [Hx Hy].
    apply strip_prefix_inv in E.
    pose proof (take_drop_While not_semicolon t) as Hsplit.
    pose proof (dropWhile_starts not_semicolon t) as Hstop.
    destruct (dropWhile not_semicolon t) as [|z u] eqn:Ed.
    + exfalso. rewrite app_nil_r in Hsplit. rewrite <- Hsplit in Ht.
      pose proof (takeWhile_all not_semicolon t) as Hall. clear - Ht Hall.
      induction (takeWhile not_semicolon t) as [|a l IH]; simpl in *; [discriminate|].
      apply andb_true_iff in Hall as [Ha Hl]. unfold not_semicolon, is_semicolon in *.
      destruct (N.eqb a semicolon); [discriminate | now apply IH].
    + simpl in Hstop. unfold not_semicolon in Hstop.
      destruct (N.eqb_spec z semicolon) as [->|]; [|discriminate].
      exists [x], (y :: takeWhile not_semicolon t), u. repeat split.
      * unfold blank. simpl. now rewrite Hx.
      * unfold name_text. simpl. now rewrite Hy, takeWhile_all.
      * rewrite E. simpl. now rewrite <- Hsplit at 1.
  - intros (ws & g & r & Hws & Hg & ->).
    destruct (spec_package_at _) eqn:E; [reflexivity|].
    apply exec_package_none in E.
    destruct (exec_package_found ws g r Hws Hg) as (? & ? & E' & _). congruence.
Qed.

Lemma spec_public_class_at_shape s id :
  spec_public_class_at s = Some id <->
  exists ws1 ws2 rest,
    blank ws1 = true /\ blank ws2 = true /\ word_run id = true
    /\ starts_with is_word rest = false
    /\ s = lit "public" ++ ws1 ++ lit "class" ++ ws2 ++ id ++ rest.
Proof.
  split.
  - unfold spec_public_class_at.
    destruct (strip_prefix (lit "public") s) as [s1|] eqn:E1; [|discriminate].
    destruct (starts_with is_space s1) eqn:Hs1; [|discriminate].
    destruct (strip_prefix (lit "class") (dropWhile is_space s1)) as [s3|] eqn:E3;
      [|discriminate].
    destruct (starts_with is_space s3) eqn:Hs3; [|discriminate]. cbv zeta.
    destruct (starts_with is_word (dropWhile is_space s3)) eqn:Hs4; [|discriminate].
    intros [= <-].
    apply strip_prefix_inv in E1, E3.
    exists (takeWhile is_space s1), (takeWhile is_space s3),
      (dropWhile is_word (dropWhile is_space s3)).
    assert (forall q t, starts_with q t = true -> nonempty (takeWhile q t) = true)
      as Hne by (intros q [|a t]; simpl; [discriminate | now intros ->]).
    repeat split.
    + unfold blank. now rewrite Hne, takeWhile_all.
    + unfold blank. now rewrite Hne, takeWhile_all.
    + unfold word_run. now rewrite Hne, takeWhile_all.
    + apply dropWhile_starts.
    + rewrite !take_drop_While.
      replace (lit "class" ++ s3) with (dropWhile is_space s1) by exact E3.
      rewrite take_drop_While. exact E1.
  - intros (ws1 & ws2 & rest & H1 & H2 & Hid & Hrest & ->).
    now apply class_shape.
Qed.

(* ================================================================== *)
(** * The resolver *)
(* ================================================================== *)

Lemma resolver_without_class s :
  index_where public_class_at s = None ->
  JavaRunner.extractMainClass s = lit "Main".
Proof.
  intros H. unfold JavaRunner.extractMainClass.
  now rewrite (no_class_found s H).
Qed.

Lemma resolver_class_only s pre ws1 ws2 id rest :
  s = pre ++ lit "public" ++ ws1 ++ lit "class" ++ ws2 ++ id ++ rest ->
  blank ws1 = true -> blank ws2 = true -> word_run id = true ->
  starts_with is_word rest = false ->
  index_where public_class_at s = Some (length pre) ->
  index_where spec_package_at s = None ->
  JavaRunner.extractMainClass s = id.
Proof.
  intros -> H1 H2 Hid Hrest Hidx Hpkg.
  destruct (first_class_found pre ws1 ws2 id rest H1 H2 Hid Hrest Hidx)
    as (whole & Hc).
  unfold JavaRunner.extractMainClass. now rewrite Hc, (no_package_found _ Hpkg).
Qed.

Lemma resolver_package_class s pre ws1 ws2 id rest p ws g r :
  s = pre ++ lit "public" ++ ws1 ++ lit "class" ++ ws2 ++ id ++ rest ->
  blank ws1 = true -> blank ws2 = true -> word_run id = true ->
  starts_with is_word rest = false ->
  index_where public_class_at s = Some (length pre) ->
  s = p ++ lit "package" ++ ws ++ g ++ semicolon :: r ->
  blank ws = true -> name_text g = true ->
  index_where spec_package_at s = Some (length p) ->
  JavaRunner.extractMainClass s = trim g ++ lit "." ++ id.
Proof.
  intros Es H1 H2 Hid Hrest Hidx Ep Hws Hg Hpidx.
  pose proof (first_class_found pre ws1 ws2 id rest H1 H2 Hid Hrest) as Hc.
  cbv zeta in Hc. rewrite <- Es in Hc. destruct (Hc Hidx) as (whole & Hclass).
  pose proof (first_package_found p ws g r Hws Hg) as Hp.
  cbv zeta in Hp. rewrite <- Ep in Hp.
  destruct (Hp Hpidx) as (wholep & cap & Hpackage & Hcap).
  unfold JavaRunner.extractMainClass. rewrite Hclass, Hpackage.
  unfold at_index. simpl nth. now rewrite Hcap.
Qed.

Lemma index_where_some P s n :
  index_where P s = Some n ->
  exists pre t, s = pre ++ t /\ length pre = n /\ P t = true.
Proof.
  revert n. induction s as [|x s IH]; intros n; simpl.
  - destruct (P []) eqn:E; [|discriminate]. intros [= <-]. now exists [], [].
  - destruct (P (x :: s)) eqn:E.
    + intros [= <-]. now exists [], (x :: s).
    + destruct (index_where P s) as [m|]; [|discriminate]. simpl. intros [= <-].
      destruct (IH m eq_refl) as (pre & t & -> & <- & Ht).
      now exists (x :: pre), t.
Qed.

(** The text has no public-class declaration exactly when it cannot be
    cut into a prefix, [public], white space, [class], white space, a run
    of word characters and a rest. *)
Lemma no_public_class_declaration s :
  index_where public_class_at s = None <->
  ~ (exists pre ws1 ws2 id rest,
        blank ws1 = true /\ blank ws2 = true /\ word_run id = true
        /\ s = pre ++ lit "public" ++ ws1 ++ lit "class" ++ ws2 ++ id ++ rest).
Proof.
  split.
  - intros Hnone (pre & ws1 & ws2 & id & rest & H1 & H2 & Hid & ->).
    pose proof (proj1 (index_where_none _ _) Hnone pre _ eq_refl) as Hat.
    unfold public_class_at in Hat.
    (* the identifier extends over the word characters that follow it *)
    assert (id ++ rest
            = (id ++ takeWhile is_word rest) ++ dropWhile is_word rest) as Hsplit
      by (now rewrite <- app_assoc, take_drop_While).
    rewrite Hsplit in Hat.
    rewrite (class_shape ws1 ws2 (id ++ takeWhile is_word rest)
               (dropWhile is_word rest) H1 H2) in Hat; [discriminate| |].
    + unfold word_run, nonempty in *. apply andb_true_iff in Hid as [Hne Hall].
      rewrite forallb_app, Hall, takeWhile_all.
      destruct id; [discriminate | reflexivity].
    + apply dropWhile_starts.
  - intros Hno. destruct (index_where public_class_at s) as [n|] eqn:E;
      [exfalso | reflexivity].
    destruct (index_where_some _ _ _ E) as (pre & t & -> & _ & Ht).
    unfold public_class_at in Ht.
    destruct (spec_public_class_at t) as [id|] eqn:Eid; [|discriminate].
    apply spec_public_class_at_shape in Eid
      as (ws1 & ws2 & rest & H1 & H2 & Hid & _ & ->).
    apply Hno. now exists pre, ws1, ws2, id, rest.
Qed.

Lemma skipn_app_length (a b : jsstring) : skipn (length a) (a ++ b) = b.
Proof. induction a; simpl; auto. Qed.

Lemma index_where_skipn P s n :
  index_where P s = Some n ->
  P (skipn n s) = true
  /\ exists pre, s = pre ++ skipn n s /\ length pre = n.
Proof.
  intros H. destruct (index_where_some _ _ _ H) as (pre & t & -> & <- & Ht).
  rewrite skipn_app_length. split; [exact Ht | now exists pre].
Qed.

(** The first public-class declaration is the one the matcher finds. *)
Lemma class_match_at s n :
  index_where public_class_at s = Some n ->
  exists whole id,
    spec_public_class_at (skipn n s) = Some id
    /\ String_match class_re s = Some [whole; id].
Proof.
  intros H. destruct (index_where_skipn _ _ _ H) as (Ht & pre & Hs & Hn).
  unfold public_class_at in Ht.
  destruct (spec_public_class_at (skipn n s)) as [id|] eqn:Eid; [|discriminate].
  destruct (exec_class_some _ _ Eid) as (whole & Hexec).
  exists whole, id. split; [reflexivity|].
  rewrite Hs. apply (String_match_first class_re public_class_at exec_class_none).
  - rewrite <- Hs, Hn. exact H.
  - exact Hexec.
Qed.

Lemma package_at_name t :
  spec_package_at t = true ->
  exists whole cap,
    exec_at package_re t = Some [whole; cap]
    /\ trim cap = spec_package_name t.
Proof.
  unfold spec_package_at.
  destruct (strip_prefix (lit "package") t) as [[|x [|y t']]|] eqn:E;
    try discriminate.
  intros H. apply andb_true_iff in H as [H Hsemi].
  apply andb_true_iff in H as [Hx Hy].
  apply strip_prefix_inv in E. subst t.
  pose proof (take_drop_While not_semicolon t') as Hsplit.
  pose proof (dropWhile_starts not_semicolon t') as Hstop.
  destruct (dropWhile not_semicolon t') as [|z u] eqn:Ed.
  - exfalso. rewrite app_nil_r in Hsplit. rewrite <- Hsplit in Hsemi.
    pose proof (takeWhile_all not_semicolon t') as Hall. clear - Hsemi Hall.
    induction (takeWhile not_semicolon t') as [|a l IH]; simpl in *; [discriminate|].
    apply andb_true_iff in Hall as [Ha Hl]. unfold not_semicolon, is_semicolon in *.
    destruct (N.eqb a semicolon); [discriminate | now apply IH].
  - simpl in Hstop. unfold not_semicolon in Hstop.
    destruct (N.eqb_spec z semicolon) as [->|]; [|discriminate].
    destruct (exec_package_found [x] (y :: takeWhile not_semicolon t') u)
      as (whole & cap & Hexec & Hcap).
    + unfold blank. simpl. now rewrite Hx.
    + unfold name_text. simpl. now rewrite Hy, takeWhile_all.
    + exists whole, cap. split.
      * rewrite <- Hexec. do 2 f_equal. simpl. now rewrite <- Hsplit at 1.
      * rewrite Hcap. unfold spec_package_name.
        change (skipn 8 (lit "package" ++ x :: y :: t')) with (y :: t').
        simpl. now rewrite Hy.
Qed.

(** The first package declaration is the one the matcher finds, and the
    capture, once trimmed, is the name read off the text. *)
Lemma package_match_at s m :
  index_where spec_package_at s = Some m ->
  exists whole cap,
    String_match package_re s = Some [whole; cap]
    /\ trim cap = spec_package_name (skipn m s).
Proof.
  intros H. destruct (index_where_skipn _ _ _ H) as (Ht & pre & Hs & Hn).
  destruct (package_at_name _ Ht) as (whole & cap & Hexec & Hcap).
  exists whole, cap. split; [|exact Hcap].
  rewrite Hs.
  apply (String_match_first package_re spec_package_at exec_package_none).
  - rewrite <- Hs, Hn. exact H.
  - exact Hexec.
Qed.

Lemma resolver_scan code :
  JavaRunner.extractMainClass code = spec_extractMainClass code.
Proof.
  unfold JavaRunner.extractMainClass, spec_extractMainClass.
  destruct (index_where public_class_at code) as [n|] eqn:En.
  - destruct (class_match_at _ _ En) as (whole & id & -> & ->).
    destruct (index_where spec_package_at code) as [m|] eqn:Em.
    + destruct (package_match_at _ _ Em) as (wp & cap & -> & Hcap).
      unfold at_index. simpl nth. now rewrite Hcap.
    + now rewrite (no_package_found _ Em).
  - now rewrite (no_class_found _ En).
Qed.

(** C10.  The React and the vanilla implementation of the Class-Name
    Resolver are extensionally equal: on every input string,
    [extractMainClass] of [JavaRunner.tsx] and [extractMainClass] of
    [script.js] return the same name. *)
Theorem extractMainClass_implementations_agree :
  forall code : jsstring,
    JavaRunner.extractMainClass code = SimpleJavaRunner.extractMainClass code.
Proof.
  intros code.
  unfold JavaRunner.extractMainClass, SimpleJavaRunner.extractMainClass.
  destruct (String_match class_re code) as [cm|]; [|reflexivity].
  destruct (String_match package_re code) as [pm|]; reflexivity.
Qed.

(** C5.  For every input text with no public-class declaration (no offset
    at which the text reads [public], white space, [class], white space
    and a word character), the resolver returns the fallback ["Main"].
    Nothing is assumed about package declarations: an input that has one
    still resolves to the bare fallback, without the package prefix. *)
Theorem extractMainClass_fallback :
  forall s : jsstring,
    index_where public_class_at s = None ->
    JavaRunner.extractMainClass s = lit "Main"
    /\ SimpleJavaRunner.extractMainClass s = lit "Main".
Proof.
  intros s H.
  change (SimpleJavaRunner.extractMainClass s)
    with (JavaRunner.extractMainClass s).
  split; now apply resolver_without_class.
Qed.

(** An input with a package declaration and a class that is not public. *)
Lemma extractMainClass_fallback_witness :
  index_where spec_package_at (lit "package a.b; class Foo {}") = Some 0%nat
  /\ JavaRunner.extractMainClass (lit "package a.b; class Foo {}") = lit "Main"
  /\ SimpleJavaRunner.extractMainClass (lit "package a.b; class Foo {}")
     = lit "Main".
Proof.
  split; [vm_compute; reflexivity|].
  apply (extractMainClass_fallback (lit "package a.b; class Foo {}")).
  vm_compute. reflexivity.
Defined.

(** C6.  Only the first matching declarations are honored.  When the
    first public-class declaration of the text names [id], the resolved
    class is [id] whatever follows it, further [public class]
    declarations included; and when the first package declaration of the
    text carries the name [g], the prefix is [g] (trimmed) whatever
    follows it. *)
Theorem extractMainClass_first_declarations :
  forall s pre ws1 ws2 id rest,
    s = pre ++ lit "public" ++ ws1 ++ lit "class" ++ ws2 ++ id ++ rest ->
    blank ws1 = true -> blank ws2 = true -> word_run id = true ->
    starts_with is_word rest = false ->
    index_where public_class_at s = Some (length pre) ->
    (index_where spec_package_at s = None ->
     JavaRunner.extractMainClass s = id
     /\ SimpleJavaRunner.extractMainClass s = id)
    /\
    (forall p ws g r,
        s = p ++ lit "package" ++ ws ++ g ++ semicolon :: r ->
        blank ws = true -> name_text g = true ->
        index_where spec_package_at s = Some (length p) ->
        JavaRunner.extractMainClass s = trim g ++ lit "." ++ id
        /\ SimpleJavaRunner.extractMainClass s = trim g ++ lit "." ++ id).
Proof.
  intros s pre ws1 ws2 id rest Es H1 H2 Hid Hrest Hidx.
  change (SimpleJavaRunner.extractMainClass s)
    with (JavaRunner.extractMainClass s).
  split.
  - intros Hnone. split; now apply (resolver_class_only s pre ws1 ws2 id rest).
  - intros p ws g r Ep Hws Hg Hpidx.
    split; now apply (resolver_package_class s pre ws1 ws2 id rest p ws g r).
Qed.

(** Two package declarations and two public classes: the first of each
    decides. *)
Lemma extractMainClass_first_declarations_witness :
  JavaRunner.extractMainClass
    (lit "package a; package b; public class First {} public class Second {}")
  = lit "a.First"
  /\ SimpleJavaRunner.extractMainClass
    (lit "package a; package b; public class First {} public class Second {}")
  = lit "a.First".
Proof.
  exact (proj2
           (extractMainClass_first_declarations
              (lit "package a; package b; public class First {} public class Second {}")
              (lit "package a; package b; ") [32%N] [32%N] (lit "First")
              (lit " {} public class Second {}")
              eq_refl eq_refl eq_refl eq_refl eq_refl eq_refl)
           [] [32%N] (lit "a")
           (lit " package b; public class First {} public class Second {}")
           eq_refl eq_refl eq_refl eq_refl).
Defined.

(** C4 does not hold as the specification states it: this text contains
    [package com.example;] and [public class Foo], but an earlier
    [package] in a comment is matched first; the capture is ["old "], and
    the result has it trimmed. *)
Lemma extractMainClass_earlier_package_wins :
  let s := lit "/* package old ; */ package com.example; public class Foo {}" in
  includes s (lit "package com.example;")
  /\ includes s (lit "public class Foo")
  /\ String_match package_re s = Some [lit "package old ;"; lit "old "]
  /\ JavaRunner.extractMainClass s = lit "old.Foo"
  /\ SimpleJavaRunner.extractMainClass s = lit "old.Foo"
  /\ JavaRunner.extractMainClass s <> lit "com.example.Foo"
  /\ SimpleJavaRunner.extractMainClass s <> lit "com.example.Foo".
Proof.
  cbv zeta. repeat split.
  - exists (lit "/* package old ; */ "), (lit " public class Foo {}"). reflexivity.
  - exists (lit "/* package old ; */ package com.example; "), (lit " {}").
    reflexivity.
  - vm_compute. discriminate.
  - vm_compute. discriminate.
Qed.

(** C4, amended.  For every input whose first package declaration is
    [package com.example;] and whose first public-class declaration is
    [public class Foo], with no word character after [Foo], the resolver
    returns ["com.example.Foo"], whichever of the two comes first in the
    text; more generally, when a package declaration and a public-class
    declaration are found, the result is the name of the first package
    declaration (the text up to its [;], with the white space at its ends
    trimmed), a dot, and the identifier of the first public-class
    declaration. *)
Theorem extractMainClass_package_and_class :
  (forall s p r pre post,
      s = p ++ lit "package com.example;" ++ r ->
      index_where spec_package_at s = Some (length p) ->
      s = pre ++ lit "public class Foo" ++ post ->
      index_where public_class_at s = Some (length pre) ->
      starts_with is_word post = false ->
      JavaRunner.extractMainClass s = lit "com.example.Foo"
      /\ SimpleJavaRunner.extractMainClass s = lit "com.example.Foo")
  /\
  (forall s m n id,
      index_where spec_package_at s = Some m ->
      index_where public_class_at s = Some n ->
      spec_public_class_at (skipn n s) = Some id ->
      JavaRunner.extractMainClass s
      = spec_package_name (skipn m s) ++ lit "." ++ id
      /\ SimpleJavaRunner.extractMainClass s
         = spec_package_name (skipn m s) ++ lit "." ++ id).
Proof.
  split.
  - intros s p r pre post Ep Hp Ec Hc Hpost.
    change (SimpleJavaRunner.extractMainClass s)
      with (JavaRunner.extractMainClass s).
    enough (JavaRunner.extractMainClass s = lit "com.example.Foo") by auto.
    apply (resolver_package_class s pre [32%N] [32%N] (lit "Foo") post
             p [32%N] (lit "com.example") r);
      try reflexivity; assumption.
  - intros s m n id Hm Hn Hid.
    change (SimpleJavaRunner.extractMainClass s)
      with (JavaRunner.extractMainClass s).
    enough (JavaRunner.extractMainClass s
            = spec_package_name (skipn m s) ++ lit "." ++ id) by auto.
    rewrite resolver_scan. unfold spec_extractMainClass.
    now rewrite Hn, Hid, Hm.
Qed.

(** The class first and the package declaration after it, with a nested
    public class and a second package declaration further on. *)
Lemma extractMainClass_package_and_class_witness :
  JavaRunner.extractMainClass
    (lit "public class Foo { public class Bar {} } package com.example; package b;")
  = lit "com.example.Foo"
  /\ SimpleJavaRunner.extractMainClass
    (lit "public class Foo { public class Bar {} } package com.example; package b;")
  = lit "com.example.Foo".
Proof.
  exact (proj1 extractMainClass_package_and_class
           (lit "public class Foo { public class Bar {} } package com.example; package b;")
           (lit "public class Foo { public class Bar {} } ") (lit " package b;")
           [] (lit " { public class Bar {} } package com.example; package b;")
           eq_refl eq_refl eq_refl eq_refl eq_refl).
Defined.

(* ================================================================== *)
(** * The orchestrator *)
(* ================================================================== *)

Arguments lit : simpl never.
Arguments compile_failed : simpl never.
Arguments TextEncoder_encode : simpl never.

Lemma compiles_app cs c :
  compiles (cs ++ [c]) = (compiles cs + (if is_compile c then 1 else 0))%nat.
Proof.
  unfold compiles. rewrite filter_app, length_app. simpl.
  destruct (is_compile c); reflexivity.
Qed.

Lemma launches_app cs c :
  launches (cs ++ [c]) = (launches cs + (if is_launch c then 1 else 0))%nat.
Proof.
  unfold launches. rewrite filter_app, length_app. simpl.
  destruct (is_launch c); reflexivity.
Qed.






(** Unfolding of the transition functions on a state given by its fields. *)
Ltac react_run :=
  cbv [JavaRunner.exec fold_left JavaRunner.step JavaRunner.runCode
       JavaRunner.resume JavaRunner.finally JavaRunner.catch
       JavaRunner.append_console JavaRunner.clearConsole JavaRunner.clearOutput
       JavaRunner.suspend JavaRunner.call JavaRunner.setTimeout
       JavaRunner.setIsRunning JavaRunner.set_console JavaRunner.set_display
       JavaRunner.set_pending JavaRunner.set_timers JavaRunner.setCheerpjReady
       JavaRunner.setCurrentCode JavaRunner.isRunning JavaRunner.currentCode
       JavaRunner.cheerpjReady JavaRunner.consoleRef JavaRunner.outputRef
       JavaRunner.cheerpjDisplay JavaRunner.calls JavaRunner.timers
       JavaRunner.pending negb orb];
  simpl.

Ltac vanilla_run :=
  cbv [SimpleJavaRunner.exec fold_left SimpleJavaRunner.step
       SimpleJavaRunner.runCode SimpleJavaRunner.resume SimpleJavaRunner.finally
       SimpleJavaRunner.catch SimpleJavaRunner.showError
       SimpleJavaRunner.timer_callback SimpleJavaRunner.init_failure
       SimpleJavaRunner.clearConsole SimpleJavaRunner.clearOutput
       SimpleJavaRunner.setRunning SimpleJavaRunner.suspend SimpleJavaRunner.call
       SimpleJavaRunner.setTimeout SimpleJavaRunner.set_isRunning
       SimpleJavaRunner.set_currentCode SimpleJavaRunner.set_console
       SimpleJavaRunner.set_display SimpleJavaRunner.set_runBtn
       SimpleJavaRunner.set_loading SimpleJavaRunner.set_observer
       SimpleJavaRunner.set_runtimeReady SimpleJavaRunner.set_pending
       SimpleJavaRunner.set_timers SimpleJavaRunner.isRunning
       SimpleJavaRunner.currentCode SimpleJavaRunner.console
       SimpleJavaRunner.output SimpleJavaRunner.cheerpjDisplay
       SimpleJavaRunner.runBtn SimpleJavaRunner.loading SimpleJavaRunner.observer
       SimpleJavaRunner.runtimeReady SimpleJavaRunner.calls
       SimpleJavaRunner.timers SimpleJavaRunner.pending negb orb];
  simpl.

(** ** One cycle per busy period: the React component *)

Module ReactCycle.
Import JavaRunner.

Lemma react_busy_trigger st w : isRunning st = true -> step st (RunTriggered w) = st.
Proof.
  intros H. simpl. unfold runCode. rewrite H.
  now rewrite orb_true_r.
Qed.



Lemma react_trigger_calls st w :
  isRunning st = false -> cheerpjReady st = true ->
  calls (step st (RunTriggered w)) =
  calls st
  ++ CallAddStringFile source_path (TextEncoder_encode (currentCode st))
  :: match w with
     | Returned _ => [CallRunMain javac_main classPath javac_args]
     | Threw _ => []
     end
  /\ pending (step st (RunTriggered w)) =
     pending st
     ++ match w with
        | Returned _ => [AwaitCompile (currentCode st) classPath]
        | Threw _ => []
        end.
Proof.
  intros H1 H2. simpl. unfold runCode. rewrite H1, H2. simpl.
  destruct w; simpl; unfold finally, catch, append_console, clearOutput, clearConsole;
    destruct st as [? ? ? [t|] [|] [d|] ? ? ?]; simpl;
    rewrite <- ?app_assoc, ?app_nil_r; split; reflexivity.
Qed.


Lemma react_busy_step_cycle c l st ev :
  isRunning st = true -> cycle c l st -> cycle c l (step st ev).
Proof.
  intros Hbusy Hcyc. destruct ev as [| doc | w | n r | | | text | html];
    try (now rewrite react_busy_trigger).
  - (* Initialized *)
    unfold cycle in *. simpl. destruct (outputRef st); simpl; [|exact Hcyc].
    rewrite compiles_app, launches_app. simpl. rewrite !Nat.add_0_r. exact Hcyc.
  - exact Hcyc.
  - (* Settled *)
    destruct st as [run code ready cons out disp cs ts ps].
    unfold cycle in *. simpl in *.
    destruct Hcyc as [Hc [[-> Hl] | [[(code' & cp & ->) Hl] | [-> Hl]]]].
    + destruct n; simpl; auto.
    + destruct n as [|[|n]]; simpl; [|eauto 10..].
      destruct r as [z | e]; simpl.
      * destruct (Z.eqb z 0); simpl.
        -- rewrite compiles_app, launches_app. simpl.
           split; [lia|]. right. right. split; [reflexivity | lia].
        -- unfold finally, append_console. simpl.
           destruct cons; simpl; (split; [exact Hc | left; split; [reflexivity | lia]]).
      * unfold finally, catch, append_console. simpl.
        destruct cons; simpl; (split; [exact Hc | left; split; [reflexivity | lia]]).
    + destruct n as [|[|n]]; simpl; [|eauto 10..].
      destruct r as [z | e]; simpl;
        unfold finally, catch, append_console; simpl;
        destruct cons; simpl; (split; [exact Hc | left; split; [reflexivity | lia]]).
  - (* TimerFired *)
    simpl. destruct (timers st); exact Hcyc.
  - unfold cycle in *. simpl. unfold clearConsole.
    destruct (consoleRef st); exact Hcyc.
  - unfold cycle in *. simpl. unfold append_console.
    destruct (consoleRef st); exact Hcyc.
  - exact Hcyc.
Qed.

Lemma react_busy_run_cycle c l evs : forall st,
  cycle c l st -> busy_throughout st evs -> cycle c l (exec st evs).
Proof.
  induction evs as [|ev evs IH]; intros st Hcyc Hbusy; [exact Hcyc|].
  destruct Hbusy as [Hb Hrest]. simpl. apply IH; [|exact Hrest].
  now apply react_busy_step_cycle.
Qed.

Lemma react_one_run_step st ev :
  one_run_in_flight st -> one_run_in_flight (step st ev).
Proof.
  destruct st as [run code ready cons out disp cs ts ps].
  unfold one_run_in_flight. cbn [isRunning pending timers]. intros H.
  assert (run = false /\ ps = [] /\ ts = []
          \/ run = true /\ (exists a, ps = [a] /\ ts = [])
          \/ run = true /\ (exists d, ps = [] /\ ts = [d]))
    as [(-> & -> & ->) | [(-> & a & -> & ->) | (-> & d & -> & ->)]].
  { destruct run; [|now left]. right.
    destruct ps as [|a [|b ps]], ts as [|d [|d' ts]]; simpl in H;
      try lia; eauto. }
  - (* idle *)
    destruct ev as [| doc | w | n r | | | text | html];
      try destruct w; try destruct n;
      destruct ready, cons, out, disp; react_run; auto.
  - (* busy, one activation suspended *)
    destruct ev as [| doc | w | n r | | | text | html];
      try destruct w; try destruct n as [|[|n]]; try destruct r as [z|e];
      try destruct a as [c cp|];
      destruct ready, cons, out, disp; react_run;
      try destruct (Z.eqb z 0); auto.
  - (* busy, the run is over and its timer armed *)
    destruct ev as [| doc | w | n r | | | text | html];
      try destruct w; try destruct n;
      destruct ready, cons, out, disp; react_run; auto.
Qed.

Lemma react_one_run_exec evs : forall st,
  one_run_in_flight st -> one_run_in_flight (exec st evs).
Proof.
  induction evs as [|ev evs IH]; intros st H; [exact H|].
  simpl. apply IH. now apply react_one_run_step.
Qed.

(** In the React component an idle state has nothing in flight. *)
Lemma react_idle_is_quiescent initialCode evs :
  let st := exec (initial initialCode) evs in
  isRunning st = false -> pending st = [] /\ timers st = [].
Proof.
  intros st Hidle.
  assert (one_run_in_flight st) as H by (apply react_one_run_exec; now split).
  unfold one_run_in_flight in H. now rewrite Hidle in H.
Qed.

End ReactCycle.

(** ** One cycle per busy period: the vanilla controller *)

Module VanillaCycle.
Import SimpleJavaRunner.

Lemma vanilla_busy_trigger st w : isRunning st = true -> step st (RunTriggered w) = st.
Proof. intros H. simpl. unfold runCode. now rewrite H. Qed.


Lemma vanilla_trigger_calls st w :
  isRunning st = false ->
  calls (step st (RunTriggered w)) =
  calls st
  ++ CallAddStringFile source_path (TextEncoder_encode (currentCode st))
  :: match w with
     | Returned _ => [CallRunMain javac_main classPath javac_args]
     | Threw _ => []
     end
  /\ pending (step st (RunTriggered w)) =
     pending st
     ++ match w with
        | Returned _ => [AwaitCompile classPath]
        | Threw _ => []
        end.
Proof.
  intros H1. simpl. unfold runCode. rewrite H1.
  destruct st as [? ? [t|] ? [d|] [b|] [h|] ? ? ? ? ?];
    destruct w; simpl; rewrite <- ?app_assoc, ?app_nil_r; split; reflexivity.
Qed.


Lemma vanilla_setRunning_calls b st :
  calls (setRunning b st) = calls st /\ pending (setRunning b st) = pending st.
Proof.
  unfold setRunning. destruct st as [? ? ? ? ? [btn|] [h|] ? ? ? ? ?];
    split; reflexivity.
Qed.

Lemma vanilla_busy_step_cycle c l st ev :
  isRunning st = true -> cycle c l st -> cycle c l (step st ev).
Proof.
  intros Hbusy Hcyc.
  destruct ev as [| e | | | doc | w | n r | | | text | html];
    try (now rewrite vanilla_busy_trigger); try exact Hcyc.
  - (* Initialized *)
    destruct st as [run code cons out disp btn load obs ready cs ts ps].
    unfold cycle in *. simpl in *. destruct out; simpl.
    + rewrite compiles_app, launches_app. simpl. rewrite !Nat.add_0_r. exact Hcyc.
    + unfold init_failure, showError. simpl. destruct cons; exact Hcyc.
  - (* InitFailed *)
    destruct st as [run code cons out disp btn load obs ready cs ts ps].
    unfold cycle in *. simpl in *.
    unfold init_failure, showError. simpl. destruct cons; exact Hcyc.
  - (* MutationsDelivered *)
    unfold cycle in *. simpl. rewrite Hbusy.
    destruct (observer st); [|exact Hcyc].
    destruct (vanilla_setRunning_calls false st) as [-> ->]. exact Hcyc.
  - (* Settled *)
    destruct st as [run code cons out disp btn load obs ready cs ts ps].
    unfold cycle in *. simpl in *.
    destruct Hcyc as [Hc [[-> Hl] | [[(cp & ->) Hl] | [-> Hl]]]].
    + destruct n; simpl; auto.
    + destruct n as [|[|n]]; simpl; [|eauto 10..].
      destruct r as [z | e]; simpl.
      * destruct (Z.eqb z 0); simpl.
        -- rewrite compiles_app, launches_app. simpl.
           split; [lia|]. right. right. split; [reflexivity | lia].
        -- unfold finally, showError. simpl.
           destruct cons; simpl; (split; [exact Hc | left; split; [reflexivity | lia]]).
      * unfold finally, catch, showError. simpl.
        destruct cons; simpl; (split; [exact Hc | left; split; [reflexivity | lia]]).
    + destruct n as [|[|n]]; simpl; [|eauto 10..].
      destruct r as [z | e]; simpl;
        unfold finally, catch, showError; simpl;
        destruct cons; simpl; (split; [exact Hc | left; split; [reflexivity | lia]]).
  - (* TimerFired *)
    simpl. destruct (timers st) as [|d ts]; [exact Hcyc|].
    unfold timer_callback. simpl. rewrite Hbusy.
    unfold cycle in *.
    destruct (vanilla_setRunning_calls false (set_timers ts st)) as [-> ->]. exact Hcyc.
  - unfold cycle in *. simpl. unfold clearConsole.
    destruct (console st); exact Hcyc.
  - unfold cycle in *. simpl. destruct (console st); exact Hcyc.
Qed.

Lemma vanilla_busy_run_cycle c l evs : forall st,
  cycle c l st -> busy_throughout st evs -> cycle c l (exec st evs).
Proof.
  induction evs as [|ev evs IH]; intros st Hcyc Hbusy; [exact Hcyc|].
  destruct Hbusy as [Hb Hrest]. simpl. apply IH; [|exact Hrest].
  now apply vanilla_busy_step_cycle.
Qed.

End VanillaCycle.

(** ** One cycle per busy period: renders and the observer *)

Lemma render_eta c :
  JavaRunnerRender.mkComponent
    (JavaRunnerRender.current c) (JavaRunnerRender.handler c) = c.
Proof. now destruct c. Qed.

(** The [runCode] of the render of the current state is the [runCode]
    that reads the state variables. *)
Lemma render_runCode_in_sync st w :
  JavaRunnerRender.runCode (JavaRunnerRender.closure_of st) w st
  = JavaRunner.runCode w st.
Proof.
  destruct st as [run code ready cons out disp cs ts ps].
  unfold JavaRunnerRender.runCode, JavaRunner.runCode. simpl.
  destruct (negb ready || run)%bool; [reflexivity|].
  destruct w, cons, out, disp; reflexivity.
Qed.

Lemma render_trigger_in_sync c w :
  JavaRunnerRender.handler c
  = JavaRunnerRender.closure_of (JavaRunnerRender.current c) ->
  JavaRunnerRender.current
    (JavaRunnerRender.occur c (JavaRunnerRender.Handled (JavaRunner.RunTriggered w)))
  = JavaRunner.step (JavaRunnerRender.current c) (JavaRunner.RunTriggered w).
Proof. intros H. simpl. rewrite H. apply render_runCode_in_sync. Qed.





Lemma jsstring_eqb_refl s : jsstring_eqb s s = true.
Proof. induction s as [|x s IH]; simpl; [reflexivity|]. now rewrite N.eqb_refl. Qed.

Lemma region_eqb_refl r : SimpleJavaRunnerPage.region_eqb r r = true.
Proof. destruct r; simpl; [apply jsstring_eqb_refl | reflexivity]. Qed.

Lemma page_reported_same st : SimpleJavaRunnerPage.reported st st = false.
Proof.
  unfold SimpleJavaRunnerPage.reported. rewrite !region_eqb_refl. simpl.
  apply andb_false_r.
Qed.












(** ** Rejected triggers *)




(** ** The settlement of an awaited call *)

Lemma react_settled st n a r :
  nth_error (JavaRunner.pending st) n = Some a ->
  JavaRunner.step st (JavaRunner.Settled n r)
  = JavaRunner.resume a r
      (JavaRunner.set_pending (remove_nth n (JavaRunner.pending st)) st).
Proof. intros H. simpl. now rewrite H. Qed.

Lemma vanilla_settled st n a r :
  nth_error (SimpleJavaRunner.pending st) n = Some a ->
  SimpleJavaRunner.step st (SimpleJavaRunner.Settled n r)
  = SimpleJavaRunner.resume a r
      (SimpleJavaRunner.set_pending (remove_nth n (SimpleJavaRunner.pending st)) st).
Proof. intros H. simpl. now rewrite H. Qed.

Lemma nonzero_eqb r : r <> 0%Z -> Z.eqb r 0 = false.
Proof. intros H. now apply Z.eqb_neq. Qed.

(** C2.  When the compile step returns a non-zero result, the run ends
    there: no call is made to the runtime (so no launch), no activation of
    the run stays suspended, and the fixed compilation-failure message is
    appended to the console.  Run from an idle state with nothing in
    flight, the console afterwards holds exactly that message. *)
Theorem compile_failure_no_launch :
  (* src/JavaRunner.tsx *)
  (forall st n code cp r t,
      nth_error (JavaRunner.pending st) n = Some (JavaRunner.AwaitCompile code cp) ->
      r <> 0%Z ->
      JavaRunner.consoleRef st = Some t ->
      let st' := JavaRunner.step st (JavaRunner.Settled n (Returned r)) in
      JavaRunner.calls st' = JavaRunner.calls st
      /\ JavaRunner.pending st' = remove_nth n (JavaRunner.pending st)
      /\ JavaRunner.consoleRef st' = Some (t ++ compile_failed ++ newline)
      /\ includes (t ++ compile_failed ++ newline) compile_failed)
  /\ (forall st r t,
         JavaRunner.isRunning st = false -> JavaRunner.cheerpjReady st = true ->
         JavaRunner.pending st = [] ->
         r <> 0%Z ->
         JavaRunner.consoleRef st = Some t ->
         let st' := JavaRunner.exec st [JavaRunner.RunTriggered (Returned tt);
                                        JavaRunner.Settled 0 (Returned r)] in
         launches (JavaRunner.calls st') = launches (JavaRunner.calls st)
         /\ JavaRunner.pending st' = []
         /\ JavaRunner.consoleRef st' = Some (compile_failed ++ newline))
  (* src/script.js *)
  /\ (forall st n cp r t,
         nth_error (SimpleJavaRunner.pending st) n
         = Some (SimpleJavaRunner.AwaitCompile cp) ->
         r <> 0%Z ->
         SimpleJavaRunner.console st = Some t ->
         let st' := SimpleJavaRunner.step st (SimpleJavaRunner.Settled n (Returned r)) in
         SimpleJavaRunner.calls st' = SimpleJavaRunner.calls st
         /\ SimpleJavaRunner.pending st' = remove_nth n (SimpleJavaRunner.pending st)
         /\ SimpleJavaRunner.console st'
            = Some (t ++ lit "Error: " ++ compile_failed ++ newline)
         /\ includes (t ++ lit "Error: " ++ compile_failed ++ newline)
                     compile_failed)
  /\ (forall st r t,
         SimpleJavaRunner.isRunning st = false ->
         SimpleJavaRunner.pending st = [] ->
         r <> 0%Z ->
         SimpleJavaRunner.console st = Some t ->
         let st' := SimpleJavaRunner.exec st
                      [SimpleJavaRunner.RunTriggered (Returned tt);
                       SimpleJavaRunner.Settled 0 (Returned r)] in
         launches (SimpleJavaRunner.calls st') = launches (SimpleJavaRunner.calls st)
         /\ SimpleJavaRunner.pending st' = []
         /\ SimpleJavaRunner.console st'
            = Some (lit "Error: " ++ compile_failed ++ newline)).
Proof.
  repeat apply conj.
  - intros st n code cp r t Hn Hr Ht st'. subst st'.
    rewrite (react_settled st n _ _ Hn). simpl.
    rewrite (nonzero_eqb r Hr).
    destruct st as [run c ready cons out disp cs ts ps]. simpl in *. subst cons.
    unfold JavaRunner.finally, JavaRunner.append_console. simpl.
    do 3 (split; [reflexivity|]).
    exists t, newline. reflexivity.
  - intros st r t Hidle Hready Hquiet Hr Ht st'. subst st'.
    destruct st as [run c ready cons out disp cs ts ps]. simpl in *. subst.
    destruct out, disp; react_run; rewrite (nonzero_eqb r Hr); react_run;
      rewrite !launches_app; simpl; repeat split; lia.
  - intros st n cp r t Hn Hr Ht st'. subst st'.
    rewrite (vanilla_settled st n _ _ Hn). simpl.
    rewrite (nonzero_eqb r Hr).
    destruct st as [run c cons out disp btn load obs ready cs ts ps].
    simpl in *. subst cons.
    unfold SimpleJavaRunner.finally, SimpleJavaRunner.showError. simpl.
    do 3 (split; [reflexivity|]).
    exists (t ++ lit "Error: "), newline. now rewrite <- !app_assoc.
  - intros st r t Hidle Hquiet Hr Ht st'. subst st'.
    destruct st as [run c cons out disp btn load obs ready cs ts ps].
    simpl in *. subst.
    destruct disp, btn, load; vanilla_run; rewrite (nonzero_eqb r Hr);
      vanilla_run; rewrite !launches_app; simpl; repeat split; lia.
Qed.

(** A run of the React component whose compiler call returns 1. *)
Lemma compile_failure_no_launch_witness :
  let st := JavaRunner.set_console (Some (lit "earlier output"))
              (JavaRunner.setCheerpjReady true
                 (JavaRunner.initial (lit "public class A { int x = ; }"))) in
  let st' := JavaRunner.exec st [JavaRunner.RunTriggered (Returned tt);
                                 JavaRunner.Settled 0 (Returned 1%Z)] in
  launches (JavaRunner.calls st') = launches (JavaRunner.calls st)
  /\ JavaRunner.pending st' = []
  /\ JavaRunner.consoleRef st' = Some (compile_failed ++ newline).
Proof.
  cbv zeta.
  apply (proj1 (proj2 compile_failure_no_launch)
           (JavaRunner.set_console (Some (lit "earlier output"))
              (JavaRunner.setCheerpjReady true
                 (JavaRunner.initial (lit "public class A { int x = ; }"))))
           1%Z (lit "earlier output")).
  - reflexivity.
  - reflexivity.
  - reflexivity.
  - discriminate.
  - reflexivity.
Defined.

Lemma react_compile_ok st n code cp :
  nth_error (JavaRunner.pending st) n = Some (JavaRunner.AwaitCompile code cp) ->
  let st' := JavaRunner.step st (JavaRunner.Settled n (Returned 0%Z)) in
  JavaRunner.calls st'
  = JavaRunner.calls st ++ [CallRunMain (JavaRunner.extractMainClass code) cp []]
  /\ JavaRunner.pending st'
     = remove_nth n (JavaRunner.pending st) ++ [JavaRunner.AwaitLaunch].
Proof.
  intros Hn st'. subst st'. rewrite (react_settled st n _ _ Hn).
  destruct st as [run c ready cons out disp cs ts ps]. split; reflexivity.
Qed.

Lemma react_launch_settled st n r :
  nth_error (JavaRunner.pending st) n = Some JavaRunner.AwaitLaunch ->
  JavaRunner.calls (JavaRunner.step st (JavaRunner.Settled n r))
  = JavaRunner.calls st.
Proof.
  intros Hn. rewrite (react_settled st n _ _ Hn).
  destruct st as [run c ready cons out disp cs ts ps].
  destruct r, cons; reflexivity.
Qed.

Lemma vanilla_compile_ok st n cp :
  nth_error (SimpleJavaRunner.pending st) n
  = Some (SimpleJavaRunner.AwaitCompile cp) ->
  let st' := SimpleJavaRunner.step st (SimpleJavaRunner.Settled n (Returned 0%Z)) in
  SimpleJavaRunner.calls st'
  = SimpleJavaRunner.calls st
    ++ [CallRunMain
          (SimpleJavaRunner.extractMainClass (SimpleJavaRunner.currentCode st))
          cp []]
  /\ SimpleJavaRunner.pending st'
     = remove_nth n (SimpleJavaRunner.pending st) ++ [SimpleJavaRunner.AwaitLaunch].
Proof.
  intros Hn st'. subst st'. rewrite (vanilla_settled st n _ _ Hn).
  destruct st as [run c cons out disp btn load obs ready cs ts ps].
  split; reflexivity.
Qed.

Lemma vanilla_launch_settled st n r :
  nth_error (SimpleJavaRunner.pending st) n = Some SimpleJavaRunner.AwaitLaunch ->
  SimpleJavaRunner.calls (SimpleJavaRunner.step st (SimpleJavaRunner.Settled n r))
  = SimpleJavaRunner.calls st.
Proof.
  intros Hn. rewrite (vanilla_settled st n _ _ Hn).
  destruct st as [run c cons out disp btn load obs ready cs ts ps].
  destruct r, cons; reflexivity.
Qed.

Lemma vanilla_trigger_code st w :
  SimpleJavaRunner.currentCode
    (SimpleJavaRunner.step st (SimpleJavaRunner.RunTriggered w))
  = SimpleJavaRunner.currentCode st.
Proof.
  destruct st as [run c cons out disp btn load obs ready cs ts ps].
  destruct run, w, cons, disp, btn, load; reflexivity.
Qed.

Lemma last_cons (A : Type) (d x : A) (l : list A) : last (d :: l) x = last l d.
Proof.
  revert d x. induction l as [|a l IH]; intros d x; [reflexivity|].
  change (last (d :: a :: l) x) with (last (a :: l) x).
  now rewrite (IH a x), (IH a d).
Qed.

(** Edits change the source text and nothing else. *)
Lemma react_edits docs : forall st,
  let st' := JavaRunner.exec st (map JavaRunner.DocChanged docs) in
  JavaRunner.currentCode st' = last docs (JavaRunner.currentCode st)
  /\ JavaRunner.calls st' = JavaRunner.calls st
  /\ JavaRunner.pending st' = JavaRunner.pending st.
Proof.
  induction docs as [|d docs IH]; intros st; [repeat split|].
  cbv zeta.
  change (JavaRunner.exec st (map JavaRunner.DocChanged (d :: docs)))
    with (JavaRunner.exec (JavaRunner.step st (JavaRunner.DocChanged d))
            (map JavaRunner.DocChanged docs)).
  destruct (IH (JavaRunner.step st (JavaRunner.DocChanged d))) as (H1 & H2 & H3).
  rewrite H1, H2, H3, last_cons. repeat split.
Qed.

Lemma vanilla_edits docs : forall st,
  let st' := SimpleJavaRunner.exec st (map SimpleJavaRunner.DocChanged docs) in
  SimpleJavaRunner.currentCode st' = last docs (SimpleJavaRunner.currentCode st)
  /\ SimpleJavaRunner.calls st' = SimpleJavaRunner.calls st
  /\ SimpleJavaRunner.pending st' = SimpleJavaRunner.pending st.
Proof.
  induction docs as [|d docs IH]; intros st; [repeat split|].
  cbv zeta.
  change (SimpleJavaRunner.exec st (map SimpleJavaRunner.DocChanged (d :: docs)))
    with (SimpleJavaRunner.exec
            (SimpleJavaRunner.step st (SimpleJavaRunner.DocChanged d))
            (map SimpleJavaRunner.DocChanged docs)).
  destruct (IH (SimpleJavaRunner.step st (SimpleJavaRunner.DocChanged d)))
    as (H1 & H2 & H3).
  rewrite H1, H2, H3, last_cons. repeat split.
Qed.

(** C3 does not hold as the specification states it when the text is
    edited while the compiler runs.  The React component then launches
    the class of the text it compiled, ["A"], not the class of the
    current source, ["B"]; the vanilla controller launches the class of
    the current source, ["B"], which is not the text it wrote and
    compiled. *)
Lemma launched_class_after_edit :
  let A := lit "public class A {}" in
  let B := lit "public class B {}" in
  (* src/JavaRunner.tsx *)
  (let st := JavaRunner.exec (JavaRunner.initial A)
               [JavaRunner.Initialized;
                JavaRunner.RunTriggered (Returned tt);
                JavaRunner.DocChanged B;
                JavaRunner.Settled 0 (Returned 0%Z)] in
   JavaRunner.currentCode st = B
   /\ JavaRunner.extractMainClass (JavaRunner.currentCode st) = lit "B"
   /\ filter is_launch (JavaRunner.calls st)
      = [CallRunMain (lit "A") (lit "/app/tools.jar:/files/") []])
  (* src/script.js *)
  /\ (let st := SimpleJavaRunner.exec SimpleJavaRunner.initial
                  [SimpleJavaRunner.Initialized;
                   SimpleJavaRunner.DocChanged A;
                   SimpleJavaRunner.RunTriggered (Returned tt);
                   SimpleJavaRunner.DocChanged B;
                   SimpleJavaRunner.Settled 0 (Returned 0%Z)] in
      SimpleJavaRunner.calls st
      = [CallCreateDisplay (-1) (-1);
         CallAddStringFile (lit "/str/Main.java") A;
         CallRunMain (lit "com.sun.tools.javac.Main")
           (lit "/app/tools.jar:/files/")
           [lit "/str/Main.java"; lit "-d"; lit "/files/"; lit "-Xlint"];
         CallRunMain (lit "B") (lit "/app/tools.jar:/files/") []]
      /\ SimpleJavaRunner.extractMainClass A = lit "A").
Proof.
  vm_compute. repeat split.
Qed.

(** C3, amended.  When the compile step returns 0, the program is
    launched exactly once: the settlement appends one call to the log,
    with the classpath of the compiler call and with the name the
    Class-Name Resolver gives, in the React component for the text the run
    was started with (the one it wrote and compiled), in the vanilla
    controller for [this.currentCode] as it is when the compiler settles;
    the later settlement of the launch adds no call.  Over a whole run,
    with [docs] the texts of the edits made while the compiler runs, the
    React component resolves the text of the trigger and the vanilla
    controller the last edit; with no edit the two are the same text.  For
    the default sample the name is ["Main"] and the classpath
    ["/app/tools.jar:/files/"]. *)
Theorem compile_success_launches_once :
  (* src/JavaRunner.tsx *)
  (forall st n code cp,
      nth_error (JavaRunner.pending st) n = Some (JavaRunner.AwaitCompile code cp) ->
      let st' := JavaRunner.step st (JavaRunner.Settled n (Returned 0%Z)) in
      JavaRunner.calls st'
      = JavaRunner.calls st ++ [CallRunMain (JavaRunner.extractMainClass code) cp []]
      /\ JavaRunner.pending st'
         = remove_nth n (JavaRunner.pending st) ++ [JavaRunner.AwaitLaunch])
  /\ (forall st docs r,
         JavaRunner.isRunning st = false -> JavaRunner.cheerpjReady st = true ->
         JavaRunner.pending st = [] ->
         let st' := JavaRunner.exec st
                      (JavaRunner.RunTriggered (Returned tt)
                       :: map JavaRunner.DocChanged docs
                       ++ [JavaRunner.Settled 0 (Returned 0%Z)]) in
         JavaRunner.calls st'
         = JavaRunner.calls st
           ++ [CallAddStringFile source_path
                 (TextEncoder_encode (JavaRunner.currentCode st));
               CallRunMain javac_main JavaRunner.classPath javac_args;
               CallRunMain (JavaRunner.extractMainClass (JavaRunner.currentCode st))
                 JavaRunner.classPath []]
         /\ launches (JavaRunner.calls st') = (launches (JavaRunner.calls st) + 1)%nat
         /\ JavaRunner.calls (JavaRunner.step st' (JavaRunner.Settled 0 r))
            = JavaRunner.calls st')
  /\ JavaRunner.extractMainClass JavaRunner.DEFAULT_JAVA_CODE = lit "Main"
  /\ JavaRunner.classPath = lit "/app/tools.jar:/files/"
  (* src/script.js *)
  /\ (forall st n cp,
         nth_error (SimpleJavaRunner.pending st) n
         = Some (SimpleJavaRunner.AwaitCompile cp) ->
         let st' := SimpleJavaRunner.step st
                      (SimpleJavaRunner.Settled n (Returned 0%Z)) in
         SimpleJavaRunner.calls st'
         = SimpleJavaRunner.calls st
           ++ [CallRunMain
                 (SimpleJavaRunner.extractMainClass (SimpleJavaRunner.currentCode st))
                 cp []]
         /\ SimpleJavaRunner.pending st'
            = remove_nth n (SimpleJavaRunner.pending st)
              ++ [SimpleJavaRunner.AwaitLaunch])
  /\ (forall st docs r,
         SimpleJavaRunner.isRunning st = false ->
         SimpleJavaRunner.pending st = [] ->
         let st' := SimpleJavaRunner.exec st
                      (SimpleJavaRunner.RunTriggered (Returned tt)
                       :: map SimpleJavaRunner.DocChanged docs
                       ++ [SimpleJavaRunner.Settled 0 (Returned 0%Z)]) in
         SimpleJavaRunner.calls st'
         = SimpleJavaRunner.calls st
           ++ [CallAddStringFile source_path
                 (TextEncoder_encode (SimpleJavaRunner.currentCode st));
               CallRunMain javac_main SimpleJavaRunner.classPath javac_args;
               CallRunMain
                 (SimpleJavaRunner.extractMainClass
                    (last docs (SimpleJavaRunner.currentCode st)))
                 SimpleJavaRunner.classPath []]
         /\ launches (SimpleJavaRunner.calls st')
            = (launches (SimpleJavaRunner.calls st) + 1)%nat
         /\ SimpleJavaRunner.calls
              (SimpleJavaRunner.step st' (SimpleJavaRunner.Settled 0 r))
            = SimpleJavaRunner.calls st')
  /\ SimpleJavaRunner.extractMainClass SimpleJavaRunner.getDefaultJavaCode
     = lit "Main"
  /\ SimpleJavaRunner.classPath = lit "/app/tools.jar:/files/".
Proof.
  repeat apply conj.
  - intros st n code cp Hn. exact (react_compile_ok st n code cp Hn).
  - intros st docs r Hidle Hready Hquiet st'.
    assert (st' = JavaRunner.step
                    (JavaRunner.exec
                       (JavaRunner.step st (JavaRunner.RunTriggered (Returned tt)))
                       (map JavaRunner.DocChanged docs))
                    (JavaRunner.Settled 0 (Returned 0%Z))) as E.
    { subst st'. unfold JavaRunner.exec. cbn [fold_left].
      now rewrite fold_left_app. }
    clearbody st'. subst st'.
    destruct (ReactCycle.react_trigger_calls st (Returned tt) Hidle Hready)
      as [Hcalls Hpend].
    rewrite Hquiet in Hpend. cbn [app] in Hpend.
    set (st1 := JavaRunner.step st (JavaRunner.RunTriggered (Returned tt))) in *.
    destruct (react_edits docs st1) as (_ & Hc1 & Hp1).
    set (st2 := JavaRunner.exec st1 (map JavaRunner.DocChanged docs)) in *.
    rewrite Hpend in Hp1. rewrite Hcalls in Hc1.
    assert (nth_error (JavaRunner.pending st2) 0
            = Some (JavaRunner.AwaitCompile (JavaRunner.currentCode st)
                      JavaRunner.classPath)) as Hn by now rewrite Hp1.
    destruct (react_compile_ok st2 0 _ _ Hn) as [Hc2 Hp2].
    rewrite Hp1 in Hp2. cbn [remove_nth app] in Hp2.
    split; [|split].
    + rewrite Hc2, Hc1, <- app_assoc. reflexivity.
    + rewrite Hc2, Hc1, !launches_app.
      change (JavaRunner.calls st ++ [?a; ?b])
        with (JavaRunner.calls st ++ [a] ++ [b]).
      rewrite app_assoc, !launches_app. simpl. lia.
    + apply react_launch_settled. now rewrite Hp2.
  - vm_compute. reflexivity.
  - reflexivity.
  - intros st n cp Hn. exact (vanilla_compile_ok st n cp Hn).
  - intros st docs r Hidle Hquiet st'.
    assert (st' = SimpleJavaRunner.step
                    (SimpleJavaRunner.exec
                       (SimpleJavaRunner.step st
                          (SimpleJavaRunner.RunTriggered (Returned tt)))
                       (map SimpleJavaRunner.DocChanged docs))
                    (SimpleJavaRunner.Settled 0 (Returned 0%Z))) as E.
    { subst st'. unfold SimpleJavaRunner.exec. cbn [fold_left].
      now rewrite fold_left_app. }
    clearbody st'. subst st'.
    destruct (VanillaCycle.vanilla_trigger_calls st (Returned tt) Hidle)
      as [Hcalls Hpend].
    pose proof (vanilla_trigger_code st (Returned tt)) as Hcode.
    rewrite Hquiet in Hpend. cbn [app] in Hpend.
    set (st1 := SimpleJavaRunner.step st
                  (SimpleJavaRunner.RunTriggered (Returned tt))) in *.
    destruct (vanilla_edits docs st1) as (Hd1 & Hc1 & Hp1).
    set (st2 := SimpleJavaRunner.exec st1 (map SimpleJavaRunner.DocChanged docs))
      in *.
    rewrite Hpend in Hp1. rewrite Hcalls in Hc1. rewrite Hcode in Hd1.
    assert (nth_error (SimpleJavaRunner.pending st2) 0
            = Some (SimpleJavaRunner.AwaitCompile SimpleJavaRunner.classPath))
      as Hn by now rewrite Hp1.
    destruct (vanilla_compile_ok st2 0 _ Hn) as [Hc2 Hp2].
    rewrite Hp1 in Hp2. cbn [remove_nth app] in Hp2.
    split; [|split].
    + rewrite Hc2, Hc1, Hd1, <- app_assoc. reflexivity.
    + rewrite Hc2, Hc1, !launches_app.
      change (SimpleJavaRunner.calls st ++ [?a; ?b])
        with (SimpleJavaRunner.calls st ++ [a] ++ [b]).
      rewrite app_assoc, !launches_app. simpl. lia.
    + apply vanilla_launch_settled. now rewrite Hp2.
  - vm_compute. reflexivity.
  - reflexivity.
Qed.

(** The default sample, run from the start of the page and replaced by
    another class while the compiler runs: the vanilla controller launches
    the class of the edit. *)
Lemma compile_success_launches_once_witness :
  let st := SimpleJavaRunner.initial in
  let st' := SimpleJavaRunner.exec st
               (SimpleJavaRunner.RunTriggered (Returned tt)
                :: map SimpleJavaRunner.DocChanged [lit "public class B {}"]
                ++ [SimpleJavaRunner.Settled 0 (Returned 0%Z)]) in
  SimpleJavaRunner.calls st'
  = SimpleJavaRunner.calls st
    ++ [CallAddStringFile source_path
          (TextEncoder_encode (SimpleJavaRunner.currentCode st));
        CallRunMain javac_main SimpleJavaRunner.classPath javac_args;
        CallRunMain
          (SimpleJavaRunner.extractMainClass
             (last [lit "public class B {}"] (SimpleJavaRunner.currentCode st)))
          SimpleJavaRunner.classPath []]
  /\ launches (SimpleJavaRunner.calls st')
     = (launches (SimpleJavaRunner.calls st) + 1)%nat
  /\ SimpleJavaRunner.calls
       (SimpleJavaRunner.step st' (SimpleJavaRunner.Settled 0 (Returned 0%Z)))
     = SimpleJavaRunner.calls st'.
Proof.
  cbv zeta.
  apply (proj1 (proj2 (proj2 (proj2 (proj2 (proj2 compile_success_launches_once)))))
           SimpleJavaRunner.initial [lit "public class B {}"] (Returned 0%Z)).
  - reflexivity.
  - reflexivity.
Defined.





(* ================================================================== *)
(** * More on the resolver *)
(* ================================================================== *)

(** X1.  [extractMainClass], with its two regular expressions and their
    backtracking, computes what two plain scans from the left compute:
    the fallback when no public-class declaration is found, otherwise the
    identifier of the first one, prefixed when a package declaration is
    found by the trimmed text between the white-space character after the
    first one's keyword and the next [;], and a dot. *)
Theorem extractMainClass_is_leftmost_scan :
  forall code : jsstring,
    JavaRunner.extractMainClass code = spec_extractMainClass code
    /\ SimpleJavaRunner.extractMainClass code = spec_extractMainClass code.
Proof.
  intros code.
  change (SimpleJavaRunner.extractMainClass code)
    with (JavaRunner.extractMainClass code).
  split; apply resolver_scan.
Qed.

Lemma word_run_last id :
  word_run id = true -> exists b c, id = b ++ [c] /\ is_word c = true.
Proof.
  unfold word_run, nonempty. intros H. apply andb_true_iff in H as [Hne Hall].
  destruct (exists_last (l := id)) as (b & c & ->).
  { destruct id; [discriminate | discriminate]. }
  exists b, c. split; [reflexivity|].
  rewrite forallb_app in Hall. apply andb_true_iff in Hall as [_ Hc].
  simpl in Hc. now rewrite andb_true_r in Hc.
Qed.

Lemma word_run_first id :
  word_run id = true -> starts_with is_word id = true.
Proof.
  unfold word_run. destruct id as [|c id]; [discriminate|]. simpl.
  intros H. now apply andb_true_iff in H as [H _].
Qed.

Lemma word_not_space c : is_word c = true -> is_space c = false.
Proof.
  intros H. destruct (is_space c) eqn:E; [|reflexivity].
  apply space_not_word in E. congruence.
Qed.

Lemma word_not_semicolon c : is_word c = true -> not_semicolon c = true.
Proof.
  unfold not_semicolon, semicolon. intros H.
  destruct (N.eqb_spec c 59) as [->|]; [vm_compute in H; discriminate | reflexivity].
Qed.

Section Sublists.
Variable q : code_unit -> bool.

Lemma forallb_dropWhile p s : forallb q s = true -> forallb q (dropWhile p s) = true.
Proof.
  induction s as [|x s IH]; simpl; [reflexivity|].
  intros H. apply andb_true_iff in H as [Hx Hs].
  destruct (p x); [now apply IH | simpl; now rewrite Hx, Hs].
Qed.

Lemma forallb_reverse s : forallb q (rev s) = forallb q s.
Proof.
  induction s as [|x s IH]; simpl; [reflexivity|].
  rewrite forallb_app, IH. simpl. rewrite andb_true_r. apply andb_comm.
Qed.

Lemma forallb_trim s : forallb q s = true -> forallb q (trim s) = true.
Proof.
  intros H. unfold trim. rewrite forallb_reverse.
  apply forallb_dropWhile. rewrite forallb_reverse.
  now apply forallb_dropWhile.
Qed.
End Sublists.

(** What [trim] keeps is the front of what is left once the leading white
    space is dropped. *)
Lemma trim_front s : exists b, dropWhile is_space s = trim s ++ b.
Proof.
  unfold trim. set (a := dropWhile is_space s).
  exists (rev (takeWhile is_space (rev a))).
  rewrite <- rev_app_distr, take_drop_While. now rewrite rev_involutive.
Qed.

Lemma trim_no_leading_space s : starts_with is_space (trim s) = false.
Proof.
  destruct (trim_front s) as (b & Hb).
  pose proof (dropWhile_starts is_space s) as H. rewrite Hb in H.
  destruct (trim s); [reflexivity | exact H].
Qed.

Lemma trim_blank g : forallb is_space g = true -> trim g = [].
Proof.
  intros H. unfold trim.
  assert (dropWhile is_space g = []) as ->; [|reflexivity].
  induction g as [|x g IH]; simpl in *; [reflexivity|].
  apply andb_true_iff in H as [-> H]. now apply IH.
Qed.

(** The three forms of the resolver's result. *)
Lemma resolver_cases code :
  JavaRunner.extractMainClass code = lit "Main"
  \/ exists id,
      word_run id = true
      /\ (JavaRunner.extractMainClass code = id
          \/ exists g,
              forallb not_semicolon g = true
              /\ JavaRunner.extractMainClass code = trim g ++ lit "." ++ id).
Proof.
  rewrite resolver_scan. unfold spec_extractMainClass.
  destruct (index_where public_class_at code) as [n|]; [|now left].
  destruct (spec_public_class_at (skipn n code)) as [id|] eqn:Eid; [|now left].
  right. exists id.
  apply spec_public_class_at_shape in Eid as (? & ? & ? & _ & _ & Hid & _ & _).
  split; [exact Hid|].
  destruct (index_where spec_package_at code) as [m|]; [|now left].
  right. exists (takeWhile not_semicolon (skipn 8 (skipn m code))).
  split; [apply takeWhile_all | reflexivity].
Qed.

(** X2.  The name the resolver returns is never empty: it always ends in
    a word character (a letter, a digit or an underscore). *)
Theorem extractMainClass_ends_in_word_character :
  forall code : jsstring,
    (exists body c,
        JavaRunner.extractMainClass code = body ++ [c] /\ is_word c = true)
    /\ (exists body c,
           SimpleJavaRunner.extractMainClass code = body ++ [c]
           /\ is_word c = true).
Proof.
  intros code.
  change (SimpleJavaRunner.extractMainClass code)
    with (JavaRunner.extractMainClass code).
  enough (exists body c,
             JavaRunner.extractMainClass code = body ++ [c] /\ is_word c = true)
    by auto.
  destruct (resolver_cases code) as [-> | (id & Hid & [-> | (g & _ & ->)])].
  - exists (lit "Mai"), 110%N. split; reflexivity.
  - now apply word_run_last.
  - destruct (word_run_last id Hid) as (b & c & -> & Hc).
    exists (trim g ++ lit "." ++ b), c. split; [|exact Hc].
    now rewrite <- !app_assoc.
Qed.

(** X3.  The name the resolver returns holds no [;] and has no white
    space at its start or at its end, whatever the source text is. *)
Theorem extractMainClass_clean_name :
  forall code : jsstring,
    let name := JavaRunner.extractMainClass code in
    SimpleJavaRunner.extractMainClass code = name
    /\ forallb not_semicolon name = true
    /\ starts_with is_space name = false
    /\ starts_with is_space (rev name) = false.
Proof.
  intros code name. subst name. split; [reflexivity|].
  destruct (resolver_cases code) as [-> | (id & Hid & [-> | (g & Hg & ->)])].
  - repeat split.
  - assert (forallb is_word id = true) as Hall
        by (unfold word_run in Hid; now apply andb_true_iff in Hid as [_ H]).
    split; [|split].
    + clear Hid. induction id as [|c id IH]; simpl in *; [reflexivity|].
      apply andb_true_iff in Hall as [Hc Hall].
      now rewrite (word_not_semicolon c Hc), IH.
    + pose proof (word_run_first id Hid) as H.
      destruct id as [|c id]; [discriminate|]. simpl in *.
      now apply word_not_space.
    + destruct (word_run_last id Hid) as (b & c & -> & Hc).
      rewrite rev_app_distr. simpl. now apply word_not_space.
  - assert (forallb is_word id = true) as Hall
        by (unfold word_run in Hid; now apply andb_true_iff in Hid as [_ H]).
    split; [|split].
    + rewrite !forallb_app, (forallb_trim not_semicolon g Hg). simpl.
      clear Hid. induction id as [|c id IH]; simpl in *; [reflexivity|].
      apply andb_true_iff in Hall as [Hc Hall].
      now rewrite (word_not_semicolon c Hc), IH.
    + pose proof (trim_no_leading_space g) as H.
      destruct (trim g); [reflexivity | exact H].
    + destruct (word_run_last id Hid) as (b & c & -> & Hc).
      rewrite !app_assoc, rev_app_distr. simpl. now apply word_not_space.
Qed.

(** X4.  A package declaration whose name is nothing but white space is
    still honored: the result is a dot followed by the class identifier. *)
Theorem extractMainClass_blank_package_name :
  forall s pre ws1 ws2 id rest p ws g r,
    s = pre ++ lit "public" ++ ws1 ++ lit "class" ++ ws2 ++ id ++ rest ->
    blank ws1 = true -> blank ws2 = true -> word_run id = true ->
    starts_with is_word rest = false ->
    index_where public_class_at s = Some (length pre) ->
    s = p ++ lit "package" ++ ws ++ g ++ semicolon :: r ->
    blank ws = true -> blank g = true ->
    index_where spec_package_at s = Some (length p) ->
    JavaRunner.extractMainClass s = lit "." ++ id
    /\ SimpleJavaRunner.extractMainClass s = lit "." ++ id.
Proof.
  intros s pre ws1 ws2 id rest p ws g r Es H1 H2 Hid Hrest Hidx Ep Hws Hg Hpidx.
  change (SimpleJavaRunner.extractMainClass s)
    with (JavaRunner.extractMainClass s).
  enough (JavaRunner.extractMainClass s = lit "." ++ id) by auto.
  rewrite (resolver_package_class s pre ws1 ws2 id rest p ws g r); auto.
  - now rewrite (trim_blank g (blank_all g Hg)).
  - unfold name_text. unfold blank in Hg. apply andb_true_iff in Hg as [-> Hg].
    now rewrite (spaces_not_semicolon g Hg).
Qed.

(** [package], two spaces and [;] in front of a public class. *)
Lemma extractMainClass_blank_package_name_witness :
  JavaRunner.extractMainClass (lit "package  ;public class Foo {}") = lit ".Foo"
  /\ SimpleJavaRunner.extractMainClass (lit "package  ;public class Foo {}")
     = lit ".Foo".
Proof.
  exact (extractMainClass_blank_package_name
           (lit "package  ;public class Foo {}")
           (lit "package  ;") [32%N] [32%N] (lit "Foo") (lit " {}")
           [] [32%N] [32%N] (lit "public class Foo {}")
           eq_refl eq_refl eq_refl eq_refl eq_refl eq_refl
           eq_refl eq_refl eq_refl eq_refl).
Defined.

(* ================================================================== *)
(** * More on the orchestrator *)
(* ================================================================== *)

Lemma react_not_ready_step st ev :
  JavaRunner.cheerpjReady st = false -> JavaRunner.pending st = [] ->
  JavaRunnerUI.is_initialized ev = false ->
  JavaRunner.cheerpjReady (JavaRunner.step st ev) = false
  /\ JavaRunner.pending (JavaRunner.step st ev) = []
  /\ JavaRunner.calls (JavaRunner.step st ev) = JavaRunner.calls st.
Proof.
  destruct st as [run code ready cons out disp cs ts ps]. simpl.
  intros -> -> Hev.
  destruct ev as [| doc | w | n r | | | text | html]; try discriminate;
    try destruct n; try destruct ts; try destruct cons; repeat split.
Qed.

(** X5.  The React component makes no call to the runtime before the
    runtime has signaled readiness: as long as [cheerpjInit] has not
    resolved, whatever else happens (triggers, edits, timers), the log of
    calls stays as it was and no run is in flight. *)
Theorem react_no_call_before_ready :
  forall st evs,
    JavaRunner.cheerpjReady st = false -> JavaRunner.pending st = [] ->
    forallb (fun ev => negb (JavaRunnerUI.is_initialized ev)) evs = true ->
    JavaRunner.cheerpjReady (JavaRunner.exec st evs) = false
    /\ JavaRunner.pending (JavaRunner.exec st evs) = []
    /\ JavaRunner.calls (JavaRunner.exec st evs) = JavaRunner.calls st.
Proof.
  intros st evs. revert st.
  induction evs as [|ev evs IH]; intros st Hready Hquiet Hevs; [auto|].
  simpl in Hevs. apply andb_true_iff in Hevs as [Hev Hevs].
  apply negb_true_iff in Hev.
  destruct (react_not_ready_step st ev Hready Hquiet Hev) as (H1 & H2 & H3).
  destruct (IH _ H1 H2 Hevs) as (H4 & H5 & H6).
  unfold JavaRunner.exec in *. simpl. now rewrite H6.
Qed.

(** Triggers with every answer of the runtime, an edit and a timer, all
    before [Initialized]. *)
Lemma react_no_call_before_ready_witness :
  let evs := [JavaRunner.RunTriggered (Returned tt);
              JavaRunner.DocChanged (lit "class A {}");
              JavaRunner.RunTriggered (Threw (OtherValue (lit "no")));
              JavaRunner.Settled 0 (Returned 0%Z);
              JavaRunner.TimerFired] in
  let st := JavaRunner.initial JavaRunner.DEFAULT_JAVA_CODE in
  JavaRunner.cheerpjReady (JavaRunner.exec st evs) = false
  /\ JavaRunner.pending (JavaRunner.exec st evs) = []
  /\ JavaRunner.calls (JavaRunner.exec st evs) = JavaRunner.calls st.
Proof.
  cbv zeta.
  apply (react_no_call_before_ready
           (JavaRunner.initial JavaRunner.DEFAULT_JAVA_CODE)).
  - reflexivity.
  - reflexivity.
  - reflexivity.
Defined.

Lemma render_handled_in_sync c ev :
  JavaRunnerRender.handler c
  = JavaRunnerRender.closure_of (JavaRunnerRender.current c) ->
  JavaRunnerRender.current (JavaRunnerRender.occur c (JavaRunnerRender.Handled ev))
  = JavaRunner.step (JavaRunnerRender.current c) ev.
Proof.
  intros H. destruct ev; try reflexivity. now apply render_trigger_in_sync.
Qed.

(** With a render committed after every event, the component goes
    through the states of [JavaRunner.step]. *)
Lemma render_each_is_exec evs : forall c,
  JavaRunnerRender.handler c
  = JavaRunnerRender.closure_of (JavaRunnerRender.current c) ->
  JavaRunnerRender.run c (JavaRunnerRender.rendered_each evs)
  = JavaRunnerRender.mkComponent
      (JavaRunner.exec (JavaRunnerRender.current c) evs)
      (JavaRunnerRender.closure_of
         (JavaRunner.exec (JavaRunnerRender.current c) evs)).
Proof.
  induction evs as [|ev evs IH]; intros c H.
  - simpl. rewrite <- H. symmetry. apply render_eta.
  - change (JavaRunnerRender.run c (JavaRunnerRender.rendered_each (ev :: evs)))
      with (JavaRunnerRender.run
              (JavaRunnerRender.occur
                 (JavaRunnerRender.occur c (JavaRunnerRender.Handled ev))
                 JavaRunnerRender.Committed)
              (JavaRunnerRender.rendered_each evs)).
    rewrite IH by reflexivity.
    change (JavaRunnerRender.current
              (JavaRunnerRender.occur
                 (JavaRunnerRender.occur c (JavaRunnerRender.Handled ev))
                 JavaRunnerRender.Committed))
      with (JavaRunnerRender.current
              (JavaRunnerRender.occur c (JavaRunnerRender.Handled ev))).
    now rewrite (render_handled_in_sync c ev H).
Qed.

(** X6.  In the React component runs do not overlap as long as a render
    is committed after every event, so that every trigger reaches the
    [runCode] of the current state: in every state reached in this way
    from the mounted component, at most one activation of [runCode] is
    suspended and at most one fallback timer is armed, never both, and
    only while the component is busy. *)
Theorem react_runs_never_overlap :
  forall initialCode evs,
    let st := JavaRunnerRender.current
                (JavaRunnerRender.run (JavaRunnerRender.mount initialCode)
                   (JavaRunnerRender.rendered_each evs)) in
    length (JavaRunner.pending st) + length (JavaRunner.timers st) <= 1
    /\ (length (JavaRunner.pending st) + length (JavaRunner.timers st) = 1
        -> JavaRunner.isRunning st = true).
Proof.
  intros initialCode evs st. subst st.
  rewrite render_each_is_exec by reflexivity.
  cbn [JavaRunnerRender.current JavaRunnerRender.mount].
  set (st := JavaRunner.exec (JavaRunner.initial initialCode) evs).
  assert (JavaRunner.one_run_in_flight st) as H
      by (apply ReactCycle.react_one_run_exec; now split).
  unfold JavaRunner.one_run_in_flight in H.
  destruct (JavaRunner.isRunning st).
  - rewrite H. auto.
  - destruct H as [-> ->]. simpl. split; [lia | discriminate].
Qed.

Lemma render_runCode_calls k w st :
  JavaRunnerRender.seen_cheerpjReady k = true ->
  JavaRunnerRender.seen_isRunning k = false ->
  JavaRunner.calls (JavaRunnerRender.runCode k w st)
  = JavaRunner.calls st
    ++ CallAddStringFile source_path
         (TextEncoder_encode (JavaRunnerRender.seen_currentCode k))
    :: match w with
       | Returned _ => [CallRunMain javac_main JavaRunner.classPath javac_args]
       | Threw _ => []
       end
  /\ JavaRunner.pending (JavaRunnerRender.runCode k w st)
     = JavaRunner.pending st
       ++ match w with
          | Returned _ =>
              [JavaRunner.AwaitCompile (JavaRunnerRender.seen_currentCode k)
                 JavaRunner.classPath]
          | Threw _ => []
          end.
Proof.
  intros H1 H2. unfold JavaRunnerRender.runCode. rewrite H1, H2. simpl.
  destruct st as [run code ready cons out disp cs ts ps].
  destruct w, cons, out, disp; simpl;
    rewrite <- ?app_assoc, ?app_nil_r; split; reflexivity.
Qed.

(** X19.  In the React component two triggers that reach the [runCode]
    of one render, made while RunState was idle, both start a run: each
    writes the text of that render and calls the compiler, and two
    activations are then suspended. *)
Theorem react_same_render_triggers_both_run :
  forall c w1 w2,
    JavaRunnerRender.seen_cheerpjReady (JavaRunnerRender.handler c) = true ->
    JavaRunnerRender.seen_isRunning (JavaRunnerRender.handler c) = false ->
    let code := JavaRunnerRender.seen_currentCode (JavaRunnerRender.handler c) in
    let st := JavaRunnerRender.current c in
    let st' := JavaRunnerRender.current
                 (JavaRunnerRender.run c
                    [JavaRunnerRender.Handled (JavaRunner.RunTriggered w1);
                     JavaRunnerRender.Handled (JavaRunner.RunTriggered w2)]) in
    JavaRunner.calls st'
    = (JavaRunner.calls st
       ++ CallAddStringFile source_path (TextEncoder_encode code)
       :: match w1 with
          | Returned _ => [CallRunMain javac_main JavaRunner.classPath javac_args]
          | Threw _ => []
          end)
      ++ CallAddStringFile source_path (TextEncoder_encode code)
      :: match w2 with
         | Returned _ => [CallRunMain javac_main JavaRunner.classPath javac_args]
         | Threw _ => []
         end
    /\ JavaRunner.pending st'
       = (JavaRunner.pending st
          ++ match w1 with
             | Returned _ => [JavaRunner.AwaitCompile code JavaRunner.classPath]
             | Threw _ => []
             end)
         ++ match w2 with
            | Returned _ => [JavaRunner.AwaitCompile code JavaRunner.classPath]
            | Threw _ => []
            end.
Proof.
  intros c w1 w2 Hready Hidle code st st'. subst code st st'.
  unfold JavaRunnerRender.run.
  cbn [fold_left JavaRunnerRender.occur JavaRunnerRender.current
       JavaRunnerRender.handler].
  destruct (render_runCode_calls (JavaRunnerRender.handler c) w2
              (JavaRunnerRender.runCode (JavaRunnerRender.handler c) w1
                 (JavaRunnerRender.current c)) Hready Hidle) as [-> ->].
  destruct (render_runCode_calls (JavaRunnerRender.handler c) w1
              (JavaRunnerRender.current c) Hready Hidle) as [-> ->].
  split; reflexivity.
Qed.

(** A double click on the run button before the next render: the
    compiler is called twice. *)
Lemma react_same_render_triggers_both_run_witness :
  let c := JavaRunnerRender.run (JavaRunnerRender.mount (lit "public class A {}"))
             [JavaRunnerRender.Handled JavaRunner.Initialized;
              JavaRunnerRender.Committed] in
  let st' := JavaRunnerRender.current
               (JavaRunnerRender.run c
                  [JavaRunnerRender.Handled (JavaRunner.RunTriggered (Returned tt));
                   JavaRunnerRender.Handled (JavaRunner.RunTriggered (Returned tt))]) in
  compiles (JavaRunner.calls st') = 2%nat
  /\ length (JavaRunner.pending st') = 2%nat.
Proof.
  cbv zeta.
  destruct (react_same_render_triggers_both_run
              (JavaRunnerRender.run (JavaRunnerRender.mount (lit "public class A {}"))
                 [JavaRunnerRender.Handled JavaRunner.Initialized;
                  JavaRunnerRender.Committed])
              (Returned tt) (Returned tt) eq_refl eq_refl) as [Hc Hp].
  cbv zeta in Hc, Hp. rewrite Hc, Hp. split; reflexivity.
Defined.

(** X7.  In the vanilla controller runs can overlap: when the callback
    of the MutationObserver runs during a run, it clears the busy flag, and
    the next trigger starts a second run while the first still waits for
    the compiler; the compiler has then been called twice. *)
Theorem vanilla_observer_lets_runs_overlap :
  forall st,
    SimpleJavaRunner.isRunning st = false ->
    SimpleJavaRunner.observer st = true ->
    SimpleJavaRunner.pending st = [] ->
    let st' := SimpleJavaRunner.exec st
                 [SimpleJavaRunner.RunTriggered (Returned tt);
                  SimpleJavaRunner.MutationsDelivered;
                  SimpleJavaRunner.RunTriggered (Returned tt)] in
    SimpleJavaRunner.isRunning st' = true
    /\ SimpleJavaRunner.pending st'
       = [SimpleJavaRunner.AwaitCompile SimpleJavaRunner.classPath;
          SimpleJavaRunner.AwaitCompile SimpleJavaRunner.classPath]
    /\ compiles (SimpleJavaRunner.calls st')
       = (compiles (SimpleJavaRunner.calls st) + 2)%nat.
Proof.
  intros st Hidle Hobs Hquiet st'. subst st'.
  destruct st as [run c cons out disp btn load obs ready cs ts ps].
  simpl in *. subst.
  destruct cons, disp, btn, load; vanilla_run;
    (split; [reflexivity|]); (split; [reflexivity|]);
    change (cs ++ [?a; ?b]) with (cs ++ [a] ++ [b]);
    rewrite ?app_assoc, !compiles_app; simpl; lia.
Qed.

(** The controller one second after the page has loaded. *)
Lemma vanilla_observer_lets_runs_overlap_witness :
  let st := SimpleJavaRunner.step SimpleJavaRunner.initial
              SimpleJavaRunner.ObserverInstalled in
  let st' := SimpleJavaRunner.exec st
               [SimpleJavaRunner.RunTriggered (Returned tt);
                SimpleJavaRunner.MutationsDelivered;
                SimpleJavaRunner.RunTriggered (Returned tt)] in
  SimpleJavaRunner.isRunning st' = true
  /\ SimpleJavaRunner.pending st'
     = [SimpleJavaRunner.AwaitCompile SimpleJavaRunner.classPath;
        SimpleJavaRunner.AwaitCompile SimpleJavaRunner.classPath]
  /\ compiles (SimpleJavaRunner.calls st')
     = (compiles (SimpleJavaRunner.calls st) + 2)%nat.
Proof.
  cbv zeta.
  apply (vanilla_observer_lets_runs_overlap
           (SimpleJavaRunner.step SimpleJavaRunner.initial
              SimpleJavaRunner.ObserverInstalled)).
  - reflexivity.
  - reflexivity.
  - reflexivity.
Defined.

(** X8.  An edit made while the compiler runs: the React component
    launches the class resolved from the source it compiled, the vanilla
    controller the class resolved from the edited text, which was not
    compiled. *)
Theorem edit_during_compile :
  (forall st doc,
      JavaRunner.isRunning st = false -> JavaRunner.cheerpjReady st = true ->
      JavaRunner.pending st = [] ->
      JavaRunner.calls
        (JavaRunner.exec st [JavaRunner.RunTriggered (Returned tt);
                             JavaRunner.DocChanged doc;
                             JavaRunner.Settled 0 (Returned 0%Z)])
      = JavaRunner.calls st
        ++ [CallAddStringFile source_path
              (TextEncoder_encode (JavaRunner.currentCode st));
            CallRunMain javac_main JavaRunner.classPath javac_args;
            CallRunMain (JavaRunner.extractMainClass (JavaRunner.currentCode st))
              JavaRunner.classPath []])
  /\ (forall st doc,
         SimpleJavaRunner.isRunning st = false ->
         SimpleJavaRunner.pending st = [] ->
         SimpleJavaRunner.calls
           (SimpleJavaRunner.exec st [SimpleJavaRunner.RunTriggered (Returned tt);
                                      SimpleJavaRunner.DocChanged doc;
                                      SimpleJavaRunner.Settled 0 (Returned 0%Z)])
         = SimpleJavaRunner.calls st
           ++ [CallAddStringFile source_path
                 (TextEncoder_encode (SimpleJavaRunner.currentCode st));
               CallRunMain javac_main SimpleJavaRunner.classPath javac_args;
               CallRunMain (SimpleJavaRunner.extractMainClass doc)
                 SimpleJavaRunner.classPath []]).
Proof.
  split.
  - intros st doc Hidle Hready Hquiet.
    destruct st as [run c ready cons out disp cs ts ps]. simpl in *. subst.
    destruct cons, out, disp; react_run; now rewrite <- !app_assoc.
  - intros st doc Hidle Hquiet.
    destruct st as [run c cons out disp btn load obs ready cs ts ps].
    simpl in *. subst.
    destruct cons, disp, btn, load; vanilla_run; now rewrite <- !app_assoc.
Qed.

(** The class is renamed from [A] to [B] while [A] is compiled. *)
Lemma edit_during_compile_witness :
  let st := SimpleJavaRunner.set_currentCode (lit "public class A {}")
              SimpleJavaRunner.initial in
  SimpleJavaRunner.calls
    (SimpleJavaRunner.exec st
       [SimpleJavaRunner.RunTriggered (Returned tt);
        SimpleJavaRunner.DocChanged (lit "public class B {}");
        SimpleJavaRunner.Settled 0 (Returned 0%Z)])
  = SimpleJavaRunner.calls st
    ++ [CallAddStringFile source_path
          (TextEncoder_encode (SimpleJavaRunner.currentCode st));
        CallRunMain javac_main SimpleJavaRunner.classPath javac_args;
        CallRunMain (SimpleJavaRunner.extractMainClass (lit "public class B {}"))
          SimpleJavaRunner.classPath []].
Proof.
  cbv zeta.
  apply (proj2 edit_during_compile
           (SimpleJavaRunner.set_currentCode (lit "public class A {}")
              SimpleJavaRunner.initial)
           (lit "public class B {}")).
  - reflexivity.
  - reflexivity.
Defined.





(** ** What the DOM regions keep *)









(** ** The run control *)

Lemma vanilla_setRunning_in_sync b st :
  SimpleJavaRunnerUI.controls_in_sync (SimpleJavaRunner.setRunning b st).
Proof.
  destruct st as [run code cons out disp btn load obs ready cs ts ps].
  unfold SimpleJavaRunnerUI.controls_in_sync.
  destruct btn, load, b; simpl; auto.
Qed.

Lemma vanilla_in_sync_frame st st' :
  SimpleJavaRunner.isRunning st' = SimpleJavaRunner.isRunning st ->
  SimpleJavaRunner.runBtn st' = SimpleJavaRunner.runBtn st ->
  SimpleJavaRunner.loading st' = SimpleJavaRunner.loading st ->
  SimpleJavaRunnerUI.controls_in_sync st ->
  SimpleJavaRunnerUI.controls_in_sync st'.
Proof.
  unfold SimpleJavaRunnerUI.controls_in_sync. now intros -> -> ->.
Qed.

Lemma vanilla_in_sync_step st ev :
  SimpleJavaRunnerUI.controls_in_sync st ->
  SimpleJavaRunnerUI.controls_in_sync (SimpleJavaRunner.step st ev).
Proof.
  intros H.
  destruct ev as [| e | | | doc | w | n r | | | text | html].
  - apply (vanilla_in_sync_frame st); auto;
      destruct st as [run code cons out disp btn load obs ready cs ts ps];
      simpl; destruct out, cons; reflexivity.
  - apply (vanilla_in_sync_frame st); auto;
      destruct st as [run code cons out disp btn load obs ready cs ts ps];
      simpl; destruct cons; reflexivity.
  - exact H.
  - simpl. destruct (SimpleJavaRunner.observer st); [|exact H].
    destruct (SimpleJavaRunner.isRunning st); [|exact H].
    apply vanilla_setRunning_in_sync.
  - exact H.
  - simpl. unfold SimpleJavaRunner.runCode.
    destruct (SimpleJavaRunner.isRunning st) eqn:Hrun; [exact H|].
    pose proof (vanilla_setRunning_in_sync true st) as Hs.
    revert Hs. generalize (SimpleJavaRunner.setRunning true st). intros s1 Hs.
    apply (vanilla_in_sync_frame s1); auto;
      destruct s1 as [run code cons out disp btn load obs ready cs ts ps];
      destruct w, cons, disp; reflexivity.
  - simpl. destruct (nth_error (SimpleJavaRunner.pending st) n) as [a|];
      [|exact H].
    apply (vanilla_in_sync_frame st); auto;
      destruct st as [run code cons out disp btn load obs ready cs ts ps];
      destruct a as [cp|], r as [z|e]; simpl; try destruct (Z.eqb z 0);
      destruct cons; reflexivity.
  - simpl. destruct (SimpleJavaRunner.timers st) as [|d ts] eqn:Hts; [exact H|].
    unfold SimpleJavaRunner.timer_callback.
    destruct (SimpleJavaRunner.isRunning (SimpleJavaRunner.set_timers ts st))
      eqn:Hrun.
    + apply vanilla_setRunning_in_sync.
    + apply (vanilla_in_sync_frame st); auto.
  - apply (vanilla_in_sync_frame st); auto;
      destruct st as [run code cons out disp btn load obs ready cs ts ps];
      simpl; destruct cons; reflexivity.
  - apply (vanilla_in_sync_frame st); auto;
      destruct st as [run code cons out disp btn load obs ready cs ts ps];
      simpl; destruct cons; reflexivity.
  - exact H.
Qed.

(** X12.  In the vanilla controller the run button and the loading
    overlay always show the busy flag: whatever events occur, the button is
    disabled and reads [Running...] exactly while [isRunning] is set, and
    the overlay is hidden exactly while it is not. *)
Theorem vanilla_controls_show_busy_flag :
  forall st evs,
    SimpleJavaRunnerUI.controls_in_sync st ->
    SimpleJavaRunnerUI.controls_in_sync (SimpleJavaRunner.exec st evs).
Proof.
  intros st evs. revert st.
  induction evs as [|ev evs IH]; intros st H; [exact H|].
  change (SimpleJavaRunner.exec st (ev :: evs))
    with (SimpleJavaRunner.exec (SimpleJavaRunner.step st ev) evs).
  apply IH. now apply vanilla_in_sync_step.
Qed.

(** From the page as loaded: a run that fails to compile, while the
    observer reports the console changes. *)
Lemma vanilla_controls_show_busy_flag_witness :
  SimpleJavaRunnerUI.controls_in_sync
    (SimpleJavaRunner.exec SimpleJavaRunner.initial
       [SimpleJavaRunner.ObserverInstalled;
        SimpleJavaRunner.RunTriggered (Returned tt);
        SimpleJavaRunner.Settled 0 (Returned 1%Z);
        SimpleJavaRunner.MutationsDelivered;
        SimpleJavaRunner.TimerFired]).
Proof.
  apply (vanilla_controls_show_busy_flag SimpleJavaRunner.initial).
  unfold SimpleJavaRunnerUI.controls_in_sync. simpl. auto.
Defined.



(** X14.  [setRunning] round trip: on a controller whose controls show an
    idle state, marking it busy and then idle again restores the state,
    button label and overlay included. *)
Theorem setRunning_round_trip :
  forall st,
    SimpleJavaRunnerUI.controls_in_sync st ->
    SimpleJavaRunner.isRunning st = false ->
    SimpleJavaRunner.setRunning false (SimpleJavaRunner.setRunning true st) = st.
Proof.
  intros st Hsync Hidle.
  destruct st as [run code cons out disp btn load obs ready cs ts ps].
  unfold SimpleJavaRunnerUI.controls_in_sync in Hsync. simpl in *. subst run.
  destruct Hsync as [Hb Hl].
  destruct btn as [[d text]|];
    [simpl in Hb; destruct Hb as [Hd Ht]; subst d text|];
    (destruct load as [h|]; [subst h|]); reflexivity.
Qed.

Lemma setRunning_round_trip_witness :
  SimpleJavaRunner.setRunning false
    (SimpleJavaRunner.setRunning true SimpleJavaRunner.initial)
  = SimpleJavaRunner.initial.
Proof.
  apply (setRunning_round_trip SimpleJavaRunner.initial).
  - unfold SimpleJavaRunnerUI.controls_in_sync. simpl. auto.
  - reflexivity.
Defined.

(** ** The file that is written *)

Lemma code_points_ascii s : ascii_only s = true -> code_points s = s.
Proof.
  induction s as [|c s IH]; simpl; [reflexivity|].
  intros H. apply andb_true_iff in H as [Hc Hs]. apply N.ltb_lt in Hc.
  assert (in_range 55296 56319 c = false) as ->.
  { unfold in_range. apply andb_false_iff. left. apply N.leb_gt. lia. }
  assert (in_range 56320 57343 c = false) as ->.
  { unfold in_range. apply andb_false_iff. left. apply N.leb_gt. lia. }
  now rewrite IH.
Qed.

Lemma encode_ascii s : ascii_only s = true -> TextEncoder_encode s = s.
Proof.
  intros H. unfold TextEncoder_encode. rewrite (code_points_ascii s H).
  induction s as [|c s IH]; simpl in *; [reflexivity|].
  apply andb_true_iff in H as [Hc Hs].
  unfold utf8 at 1. rewrite Hc. simpl. now rewrite IH.
Qed.

(** X15.  For a source text of ASCII characters, an accepted trigger
    hands the runtime the text itself, byte for character, under the path
    the compiler is then given, and does so before the compiler is
    called. *)
Theorem ascii_source_written_unchanged :
  (forall st,
      JavaRunner.isRunning st = false -> JavaRunner.cheerpjReady st = true ->
      ascii_only (JavaRunner.currentCode st) = true ->
      JavaRunner.calls (JavaRunner.step st (JavaRunner.RunTriggered (Returned tt)))
      = JavaRunner.calls st
        ++ [CallAddStringFile (lit "/str/Main.java") (JavaRunner.currentCode st);
            CallRunMain javac_main JavaRunner.classPath
              [lit "/str/Main.java"; lit "-d"; lit "/files/"; lit "-Xlint"]])
  /\ (forall st,
         SimpleJavaRunner.isRunning st = false ->
         ascii_only (SimpleJavaRunner.currentCode st) = true ->
         SimpleJavaRunner.calls
           (SimpleJavaRunner.step st (SimpleJavaRunner.RunTriggered (Returned tt)))
         = SimpleJavaRunner.calls st
           ++ [CallAddStringFile (lit "/str/Main.java")
                 (SimpleJavaRunner.currentCode st);
               CallRunMain javac_main SimpleJavaRunner.classPath
                 [lit "/str/Main.java"; lit "-d"; lit "/files/"; lit "-Xlint"]]).
Proof.
  split.
  - intros st Hidle Hready Hascii.
    destruct (ReactCycle.react_trigger_calls st (Returned tt) Hidle Hready)
      as [-> _].
    now rewrite (encode_ascii _ Hascii).
  - intros st Hidle Hascii.
    destruct (VanillaCycle.vanilla_trigger_calls st (Returned tt) Hidle)
      as [-> _].
    now rewrite (encode_ascii _ Hascii).
Qed.

(** The default sample is ASCII. *)
Lemma ascii_source_written_unchanged_witness :
  let st := SimpleJavaRunner.initial in
  SimpleJavaRunner.calls
    (SimpleJavaRunner.step st (SimpleJavaRunner.RunTriggered (Returned tt)))
  = SimpleJavaRunner.calls st
    ++ [CallAddStringFile (lit "/str/Main.java")
          (SimpleJavaRunner.currentCode st);
        CallRunMain javac_main SimpleJavaRunner.classPath
          [lit "/str/Main.java"; lit "-d"; lit "/files/"; lit "-Xlint"]].
Proof.
  cbv zeta.
  apply (proj2 ascii_source_written_unchanged SimpleJavaRunner.initial).
  - reflexivity.
  - vm_compute. reflexivity.
Defined.

(** ** What the orchestrator never reads *)

Lemma react_regions_step st1 st2 ev :
  JavaRunnerUI.same_but_regions st1 st2 ->
  JavaRunnerUI.same_but_regions (JavaRunner.step st1 ev) (JavaRunner.step st2 ev).
Proof.
  destruct st1 as [run1 code1 ready1 cons1 out1 disp1 cs1 ts1 ps1].
  destruct st2 as [run2 code2 ready2 cons2 out2 disp2 cs2 ts2 ps2].
  unfold JavaRunnerUI.same_but_regions. simpl.
  intros (-> & -> & -> & -> & -> & -> & ->).
  destruct ev as [| doc | w | n r | | | text | html]; simpl.
  - destruct out2; simpl; repeat split.
  - repeat split.
  - unfold JavaRunner.runCode. simpl.
    destruct (negb ready2 || run2)%bool; simpl; [repeat split|].
    destruct w, cons1, cons2, out2, disp1, disp2; simpl; repeat split.
  - destruct (nth_error ps2 n) as [a|]; simpl; [|repeat split].
    destruct a as [c cp|], r as [z|e]; simpl; try destruct (Z.eqb z 0);
      destruct cons1, cons2; simpl; repeat split.
  - destruct ts2; simpl; repeat split.
  - destruct cons1, cons2; simpl; repeat split.
  - destruct cons1, cons2; simpl; repeat split.
  - repeat split.
Qed.

Lemma render_regions_runCode k w st1 st2 :
  JavaRunnerUI.same_but_regions st1 st2 ->
  JavaRunnerUI.same_but_regions
    (JavaRunnerRender.runCode k w st1) (JavaRunnerRender.runCode k w st2).
Proof.
  destruct st1 as [run1 code1 ready1 cons1 out1 disp1 cs1 ts1 ps1].
  destruct st2 as [run2 code2 ready2 cons2 out2 disp2 cs2 ts2 ps2].
  unfold JavaRunnerUI.same_but_regions. simpl.
  intros (-> & -> & -> & -> & -> & -> & ->).
  unfold JavaRunnerRender.runCode.
  destruct (negb (JavaRunnerRender.seen_cheerpjReady k)
            || JavaRunnerRender.seen_isRunning k)%bool; simpl; [repeat split|].
  destruct w, cons1, cons2, out2, disp1, disp2; simpl; repeat split.
Qed.

Lemma render_regions_occur c1 c2 o :
  JavaRunnerRender.same_but_regions c1 c2 ->
  JavaRunnerRender.same_but_regions
    (JavaRunnerRender.occur c1 o) (JavaRunnerRender.occur c2 o).
Proof.
  destruct c1 as [st1 k1], c2 as [st2 k2].
  unfold JavaRunnerRender.same_but_regions. simpl. intros [H ->].
  destruct o as [ev|].
  - destruct ev;
      cbn [JavaRunnerRender.occur JavaRunnerRender.current
           JavaRunnerRender.handler];
      (split; [|reflexivity]);
      first [now apply render_regions_runCode
            | now apply (react_regions_step st1 st2)].
  - cbn [JavaRunnerRender.occur JavaRunnerRender.current
         JavaRunnerRender.handler].
    split; [exact H|].
    destruct H as (H1 & H2 & H3 & _).
    unfold JavaRunnerRender.closure_of. now rewrite H1, H2, H3.
Qed.

(** X16.  The React component never reads the console or the display
    back: two components that differ only in what those regions hold (or
    in whether the console element exists) go, under the same events and
    renders, through the same busy flags, source texts, runtime calls,
    timers, suspended activations and handlers. *)
Theorem regions_never_read_back :
  forall os c1 c2,
    JavaRunnerRender.same_but_regions c1 c2 ->
    JavaRunnerRender.same_but_regions
      (JavaRunnerRender.run c1 os) (JavaRunnerRender.run c2 os).
Proof.
  induction os as [|o os IH]; intros c1 c2 H; [exact H|].
  change (JavaRunnerRender.same_but_regions
            (JavaRunnerRender.run (JavaRunnerRender.occur c1 o) os)
            (JavaRunnerRender.run (JavaRunnerRender.occur c2 o) os)).
  apply IH. now apply render_regions_occur.
Qed.

(** A component without console element against one with earlier
    output, over a run that fails. *)
Lemma regions_never_read_back_witness :
  let os := [JavaRunnerRender.Handled JavaRunner.Initialized;
             JavaRunnerRender.Committed;
             JavaRunnerRender.Handled (JavaRunner.RunTriggered (Returned tt));
             JavaRunnerRender.Committed;
             JavaRunnerRender.Handled
               (JavaRunner.Settled 0 (Threw (OtherValue (lit "boom"))));
             JavaRunnerRender.Handled JavaRunner.TimerFired] in
  let c := JavaRunnerRender.mount (lit "public class A {}") in
  let without := JavaRunnerRender.mkComponent
                   (JavaRunner.set_console None (JavaRunnerRender.current c))
                   (JavaRunnerRender.handler c) in
  let earlier := JavaRunnerRender.mkComponent
                   (JavaRunner.set_console (Some (lit "old"))
                      (JavaRunnerRender.current c))
                   (JavaRunnerRender.handler c) in
  JavaRunnerRender.same_but_regions
    (JavaRunnerRender.run without os) (JavaRunnerRender.run earlier os).
Proof.
  cbv zeta.
  apply regions_never_read_back.
  unfold JavaRunnerRender.same_but_regions, JavaRunnerUI.same_but_regions.
  simpl. repeat split.
Defined.

(** ** Launches follow compilations *)

Lemma compiles_snoc cs c :
  compiles (cs ++ [c]) = compiles cs + (if is_compile c then 1 else 0).
Proof.
  unfold compiles. rewrite filter_app, length_app. simpl.
  now destruct (is_compile c).
Qed.

Lemma launches_snoc cs c :
  launches (cs ++ [c]) = launches cs + (if is_launch c then 1 else 0).
Proof.
  unfold launches. rewrite filter_app, length_app. simpl.
  now destruct (is_launch c).
Qed.

Lemma react_awaiting_remove ps : forall n a,
  nth_error ps n = Some a ->
  JavaRunnerUI.awaiting_compile ps
  = JavaRunnerUI.awaiting_compile (remove_nth n ps)
    + match a with JavaRunner.AwaitCompile _ _ => 1
                 | JavaRunner.AwaitLaunch => 0 end.
Proof.
  unfold JavaRunnerUI.awaiting_compile.
  induction ps as [|p ps IH]; intros [|n] a H; simpl in H; try discriminate.
  - injection H as ->. destruct a; simpl; lia.
  - specialize (IH n a H). destruct p; simpl in *; lia.
Qed.

Lemma vanilla_awaiting_remove ps : forall n a,
  nth_error ps n = Some a ->
  SimpleJavaRunnerUI.awaiting_compile ps
  = SimpleJavaRunnerUI.awaiting_compile (remove_nth n ps)
    + match a with SimpleJavaRunner.AwaitCompile _ => 1
                 | SimpleJavaRunner.AwaitLaunch => 0 end.
Proof.
  unfold SimpleJavaRunnerUI.awaiting_compile.
  induction ps as [|p ps IH]; intros [|n] a H; simpl in H; try discriminate.
  - injection H as ->. destruct a; simpl; lia.
  - specialize (IH n a H). destruct p; simpl in *; lia.
Qed.

Lemma react_awaiting_snoc ps a :
  JavaRunnerUI.awaiting_compile (ps ++ [a])
  = JavaRunnerUI.awaiting_compile ps
    + match a with JavaRunner.AwaitCompile _ _ => 1
                 | JavaRunner.AwaitLaunch => 0 end.
Proof.
  unfold JavaRunnerUI.awaiting_compile. rewrite filter_app, length_app.
  now destruct a.
Qed.

Lemma vanilla_awaiting_snoc ps a :
  SimpleJavaRunnerUI.awaiting_compile (ps ++ [a])
  = SimpleJavaRunnerUI.awaiting_compile ps
    + match a with SimpleJavaRunner.AwaitCompile _ => 1
                 | SimpleJavaRunner.AwaitLaunch => 0 end.
Proof.
  unfold SimpleJavaRunnerUI.awaiting_compile. rewrite filter_app, length_app.
  now destruct a.
Qed.

Lemma react_launch_budget_step st ev :
  launches (JavaRunner.calls st)
  + JavaRunnerUI.awaiting_compile (JavaRunner.pending st)
  <= compiles (JavaRunner.calls st) ->
  launches (JavaRunner.calls (JavaRunner.step st ev))
  + JavaRunnerUI.awaiting_compile (JavaRunner.pending (JavaRunner.step st ev))
  <= compiles (JavaRunner.calls (JavaRunner.step st ev)).
Proof.
  destruct st as [run code ready cons out disp cs ts ps]. simpl. intros H.
  destruct ev as [| doc | w | n r | | | text | html]; simpl.
  - destruct out; simpl; trivial.
    rewrite launches_snoc, compiles_snoc. simpl. lia.
  - exact H.
  - unfold JavaRunner.runCode. simpl.
    destruct (negb ready || run)%bool; simpl; [exact H|].
    destruct w as [[]|e], cons, out, disp; simpl;
      rewrite ?launches_snoc, ?compiles_snoc, ?react_awaiting_snoc;
      simpl; lia.
  - destruct (nth_error ps n) as [a|] eqn:Hn; simpl; [|exact H].
    rewrite (react_awaiting_remove ps n a Hn) in H.
    destruct a as [c cp|], r as [z|e]; simpl.
    + destruct (Z.eqb z 0); simpl.
      * rewrite launches_snoc, compiles_snoc, react_awaiting_snoc. simpl. lia.
      * destruct cons; simpl; lia.
    + destruct cons; simpl; lia.
    + lia.
    + destruct cons; simpl; lia.
  - destruct ts; simpl; exact H.
  - destruct cons; simpl; exact H.
  - destruct cons; simpl; exact H.
  - exact H.
Qed.

Lemma vanilla_launch_budget_step st ev :
  launches (SimpleJavaRunner.calls st)
  + SimpleJavaRunnerUI.awaiting_compile (SimpleJavaRunner.pending st)
  <= compiles (SimpleJavaRunner.calls st) ->
  launches (SimpleJavaRunner.calls (SimpleJavaRunner.step st ev))
  + SimpleJavaRunnerUI.awaiting_compile
      (SimpleJavaRunner.pending (SimpleJavaRunner.step st ev))
  <= compiles (SimpleJavaRunner.calls (SimpleJavaRunner.step st ev)).
Proof.
  destruct st as [run code cons out disp btn load obs ready cs ts ps].
  simpl. intros H.
  destruct ev as [| e | | | doc | w | n r | | | text | html]; simpl.
  - destruct out, cons; simpl; trivial;
      rewrite launches_snoc, compiles_snoc; simpl; lia.
  - destruct cons; simpl; exact H.
  - exact H.
  - destruct obs, run, btn, load; simpl; exact H.
  - exact H.
  - unfold SimpleJavaRunner.runCode. simpl.
    destruct run; simpl; [exact H|].
    destruct w as [[]|e], cons, disp, btn, load; simpl;
      rewrite ?launches_snoc, ?compiles_snoc, ?vanilla_awaiting_snoc;
      simpl; lia.
  - destruct (nth_error ps n) as [a|] eqn:Hn; simpl; [|exact H].
    rewrite (vanilla_awaiting_remove ps n a Hn) in H.
    destruct a as [cp|], r as [z|e]; simpl.
    + destruct (Z.eqb z 0); simpl.
      * rewrite launches_snoc, compiles_snoc, vanilla_awaiting_snoc. simpl. lia.
      * destruct cons; simpl; lia.
    + destruct cons; simpl; lia.
    + lia.
    + destruct cons; simpl; lia.
  - destruct ts; simpl; [exact H|].
    destruct run, btn, load; simpl; exact H.
  - destruct cons; simpl; exact H.
  - destruct cons; simpl; exact H.
  - exact H.
Qed.

(** X17.  A program is launched only after a compilation of its own: in
    every state either implementation reaches from its initial state, the
    launches made so far plus the activations still waiting for the
    compiler do not exceed the compilations started, so there are never
    more launches than compilations.  This holds also where runs of
    [script.js] overlap. *)
Theorem launches_never_exceed_compiles :
  (forall code evs,
      let st := JavaRunner.exec (JavaRunner.initial code) evs in
      launches (JavaRunner.calls st)
      + JavaRunnerUI.awaiting_compile (JavaRunner.pending st)
      <= compiles (JavaRunner.calls st))
  /\ (forall evs,
         let st := SimpleJavaRunner.exec SimpleJavaRunner.initial evs in
         launches (SimpleJavaRunner.calls st)
         + SimpleJavaRunnerUI.awaiting_compile (SimpleJavaRunner.pending st)
         <= compiles (SimpleJavaRunner.calls st)).
Proof.
  split.
  - intros code evs.
    assert (G : forall evs st,
               launches (JavaRunner.calls st)
               + JavaRunnerUI.awaiting_compile (JavaRunner.pending st)
               <= compiles (JavaRunner.calls st) ->
               launches (JavaRunner.calls (JavaRunner.exec st evs))
               + JavaRunnerUI.awaiting_compile
                   (JavaRunner.pending (JavaRunner.exec st evs))
               <= compiles (JavaRunner.calls (JavaRunner.exec st evs))).
    { clear. induction evs as [|ev evs IH]; intros st H; [exact H|].
      change (JavaRunner.exec st (ev :: evs))
        with (JavaRunner.exec (JavaRunner.step st ev) evs).
      apply IH. now apply react_launch_budget_step. }
    cbv zeta. apply G. simpl. apply Nat.le_refl.
  - intros evs.
    assert (G : forall evs st,
               launches (SimpleJavaRunner.calls st)
               + SimpleJavaRunnerUI.awaiting_compile (SimpleJavaRunner.pending st)
               <= compiles (SimpleJavaRunner.calls st) ->
               launches (SimpleJavaRunner.calls (SimpleJavaRunner.exec st evs))
               + SimpleJavaRunnerUI.awaiting_compile
                   (SimpleJavaRunner.pending (SimpleJavaRunner.exec st evs))
               <= compiles (SimpleJavaRunner.calls (SimpleJavaRunner.exec st evs))).
    { clear. induction evs as [|ev evs IH]; intros st H; [exact H|].
      change (SimpleJavaRunner.exec st (ev :: evs))
        with (SimpleJavaRunner.exec (SimpleJavaRunner.step st ev) evs).
      apply IH. now apply vanilla_launch_budget_step. }
    cbv zeta. apply G. simpl. apply Nat.le_refl.
Qed.

(** ** The page and its observer *)

(** X18.  In [script.js] what the regions hold decides whether RunState
    outlives the trigger: after an accepted trigger the busy flag is still
    set exactly when the observer is not installed or the handler made no
    write that the observer is told of, that is, the console and the
    display held nothing and no error message was appended. *)
Theorem vanilla_busy_after_trigger :
  forall st w,
    SimpleJavaRunner.isRunning st = false ->
    SimpleJavaRunner.isRunning
      (SimpleJavaRunnerPage.turn st (SimpleJavaRunner.RunTriggered w))
    = negb (SimpleJavaRunner.observer st
            && (SimpleJavaRunnerPage.has_children (SimpleJavaRunner.console st)
                || (SimpleJavaRunner.output st
                    && SimpleJavaRunnerPage.has_children
                         (SimpleJavaRunner.cheerpjDisplay st))
                || match w with
                   | Threw _ => is_some (SimpleJavaRunner.console st)
                   | Returned _ => false
                   end)).
Proof.
  intros st w H.
  destruct st as [run code cons out disp btn load obs ready cs ts ps].
  simpl in H. subst run.
  destruct obs, cons as [[|x t]|], out, disp as [[|y d]|], btn, load, w;
    vm_compute; reflexivity.
Qed.

(** A second run on a page that shows the output of the first. *)
Lemma vanilla_busy_after_trigger_witness :
  let st := SimpleJavaRunner.set_observer true
              (SimpleJavaRunner.set_console (Some (lit "Hello, World!"))
                 SimpleJavaRunner.initial) in
  SimpleJavaRunner.isRunning
    (SimpleJavaRunnerPage.turn st (SimpleJavaRunner.RunTriggered (Returned tt)))
  = false.
Proof.
  cbv zeta.
  exact (vanilla_busy_after_trigger
           (SimpleJavaRunner.set_observer true
              (SimpleJavaRunner.set_console (Some (lit "Hello, World!"))
                 SimpleJavaRunner.initial))
           (Returned tt) eq_refl).
Defined.

